(** * Survey Nest: the form builder's schema codec, recorder and stores

    A shallow embedding of [app.py] (and of the older copy of the same
    program kept beside it), with the properties its specification states.

    Python values are modelled as follows.
    - [str] is [string]; character tests ([isalnum], [isspace], [lower],
      [splitlines]) are the ASCII ones, so the model follows the program
      on ASCII text.
    - a pandas DataFrame is a [Frame]: its column labels and its rows, each
      row a list of cells in column order.
    - text that is written to a workbook or to the CSV file of the users
      and read back by pandas goes through [read_cell]: the markers of a
      missing value are read as [NaN], and what pandas makes of the other
      texts that it does not always return as written (numerals, [true],
      [inf], ...) is a parameter.
    - the clock read by [new_id] and by the recorder is an argument.
    - [st.error] output is returned next to the result. *)

From Stdlib Require Import ZArith QArith String Ascii List Bool Lia.
From stdpp Require Import base tactics option list strings pretty gmap.

Local Close Scope Q_scope.
#[local] Set Warnings "-clear-no-such-hyp".
Local Open Scope string_scope.
Local Open Scope list_scope.

(** ** Python strings *)

Module Py.

Definition is_upper (c : ascii) : bool :=
  (65 <=? nat_of_ascii c)%nat && (nat_of_ascii c <=? 90)%nat.

Definition is_lower (c : ascii) : bool :=
  (97 <=? nat_of_ascii c)%nat && (nat_of_ascii c <=? 122)%nat.

Definition is_digit (c : ascii) : bool :=
  (48 <=? nat_of_ascii c)%nat && (nat_of_ascii c <=? 57)%nat.

(** [ch.isalnum()] *)
Definition isalnum (c : ascii) : bool := is_upper c || is_lower c || is_digit c.

(** [ch.isspace()]: tab, newline, vertical tab, form feed, carriage
    return, the four separators 0x1c..0x1f and the space. *)
Definition isspace (c : ascii) : bool :=
  let n := nat_of_ascii c in
  ((9 <=? n)%nat && (n <=? 13)%nat) || ((28 <=? n)%nat && (n <=? 32)%nat).

Definition lower_char (c : ascii) : ascii :=
  if is_upper c then ascii_of_nat (nat_of_ascii c + 32) else c.

(** [s.lower()] *)
Fixpoint lower (s : string) : string :=
  match s with
  | EmptyString => EmptyString
  | String c r => String (lower_char c) (lower r)
  end.

(** [s.startswith(p)] *)
Fixpoint startswith (s p : string) : bool :=
  match p, s with
  | EmptyString, _ => true
  | String _ _, EmptyString => false
  | String a p', String b s' => if decide (a = b) then startswith s' p' else false
  end.

(** [c in s] for a one-character [c] *)
Fixpoint contains (c : ascii) (s : string) : bool :=
  match s with
  | EmptyString => false
  | String a r => if decide (a = c) then true else contains c r
  end.

(** [s.split(c, 1)[1]], defined when [c in s]: the text after the first [c] *)
Fixpoint after_first (c : ascii) (s : string) : string :=
  match s with
  | EmptyString => EmptyString
  | String a r => if decide (a = c) then r else after_first c r
  end.

Fixpoint lstrip (s : string) : string :=
  match s with
  | EmptyString => EmptyString
  | String a r => if isspace a then lstrip r else s
  end.

(** [s.strip()] *)
Definition strip (s : string) : string :=
  String.rev (lstrip (String.rev (lstrip s))).

(** the line boundaries of [splitlines] among the ASCII characters *)
Definition is_linebreak (c : ascii) : bool :=
  let n := nat_of_ascii c in
  ((10 <=? n)%nat && (n <=? 13)%nat) || ((28 <=? n)%nat && (n <=? 30)%nat).

(** [s.splitlines()]; [cur] is the line read so far, reversed, and a
    carriage return followed by a newline is one boundary. *)
Fixpoint splitlines_go (cur : string) (started : bool) (s : string) : list string :=
  match s with
  | EmptyString => if started then [String.rev cur] else []
  | String a r =>
      if is_linebreak a then
        String.rev cur ::
          match r with
          | String b r' =>
              if decide (a = "013"%char) then
                if decide (b = "010"%char) then splitlines_go "" false r'
                else splitlines_go "" false r
              else splitlines_go "" false r
          | EmptyString => []
          end
      else splitlines_go (String a cur) true r
  end.

Definition splitlines (s : string) : list string := splitlines_go "" false s.

(** [sep.join(l)] *)
Fixpoint join (sep : string) (l : list string) : string :=
  match l with
  | [] => ""
  | [x] => x
  | x :: r => x +:+ sep +:+ join sep r
  end.

(** truth value of a string *)
Definition nonempty (s : string) : bool :=
  match s with EmptyString => false | _ => true end.

End Py.

(** ** Data model *)

(** A [float] that is not NaN, as [repr] prints it: in positional
    notation (the whole part and the digits after the point), in
    scientific notation (the digits of the significand, with their point,
    and the exponent), or an infinity. *)
Inductive pyfloat : Type :=
  | FFixed (neg : bool) (whole : N) (frac : string)
  | FSci (neg : bool) (significand : string) (exponent : Z)
  | FInf (neg : bool).

Definition float_sign (neg : bool) : string := if neg then "-" else "".

(** [repr(x)], which is [str(x)]: 1.0, -0.25, 1e+16, 2.5e-07, inf *)
Definition float_str (x : pyfloat) : string :=
  match x with
  | FFixed neg whole frac => float_sign neg +:+ pretty whole +:+ "." +:+ frac
  | FSci neg significand e =>
      float_sign neg +:+ significand +:+ "e"
      +:+ (if (e <? 0)%Z then "-" else "+")
      +:+ (if (Z.abs e <? 10)%Z then "0" else "") +:+ pretty (Z.abs_N e)
  | FInf neg => float_sign neg +:+ "inf"
  end.

Fixpoint all_zero (digits : string) : bool :=
  match digits with
  | EmptyString => true
  | String c r => bool_decide (c = "0"%char) && all_zero r
  end.

(** [bool(x)]: false for the two zeros only *)
Definition float_truthy (x : pyfloat) : bool :=
  match x with
  | FFixed _ whole frac => negb ((whole =? 0)%N && all_zero frac)
  | FSci _ _ _ => true
  | FInf _ => true
  end.

(** A cell of a DataFrame read from a workbook or a CSV file: missing
    ([NaN]), text, an integer, a float or a boolean.  A column of numbers
    with a blank cell is a column of floats: its 1 is the float 1.0. *)
Inductive cell : Type :=
  | NaN
  | CStr (s : string)
  | CInt (z : Z)
  | CFloat (x : pyfloat)
  | CBool (b : bool).

(** [pd.isna(c)] *)
Definition isna (c : cell) : bool :=
  match c with NaN => true | _ => false end.

(** [str(c)] *)
Definition py_str (c : cell) : string :=
  match c with
  | NaN => "nan"
  | CStr s => s
  | CInt z => pretty z
  | CFloat x => float_str x
  | CBool true => "True"
  | CBool false => "False"
  end.

(** truth value of a cell, as [and] and [bool()] take it *)
Definition truthy (c : cell) : bool :=
  match c with
  | NaN => true
  | CStr s => Py.nonempty s
  | CInt z => negb (z =? 0)%Z
  | CFloat x => float_truthy x
  | CBool b => b
  end.

(** [c == s] for a [str] [s] *)
Definition cell_eq_str (c : cell) (s : string) : bool :=
  match c with CStr t => bool_decide (t = s) | _ => false end.

Record Frame (A : Type) : Type := mkFrame {
  columns : list string;
  rows : list (list A)
}.
Arguments mkFrame {A} _ _.
Arguments columns {A} _.
Arguments rows {A} _.

(** [pd.DataFrame(records)] for a list of dicts that all have the keys
    [cols]: no record, no column. *)
Definition DataFrame {A : Type} (cols : list string) (records : list (list A)) : Frame A :=
  match records with
  | [] => mkFrame [] []
  | _ => mkFrame cols records
  end.

(** [col in row] *)
Definition has_col (cols : list string) (col : string) : bool :=
  bool_decide (col ∈ cols).

Fixpoint col_index (cols : list string) (col : string) : option nat :=
  match cols with
  | [] => None
  | c :: r => if decide (c = col) then Some 0%nat else S <$> col_index r col
  end.

(** [row[col]] for a column the frame has *)
Definition item (cols : list string) (row : list cell) (col : string) : cell :=
  default NaN (col_index cols col ≫= λ i, row !! i).

(** A workbook: its sheets in order, by name. *)
Definition Workbook (A : Type) : Type := list (string * Frame A).

Fixpoint sheet {A : Type} (wb : Workbook A) (n : string) : option (Frame A) :=
  match wb with
  | [] => None
  | (m, df) :: r => if decide (m = n) then Some df else sheet r n
  end.

Definition sheet_names {A : Type} (wb : Workbook A) : list string := wb.*1.

Record Question : Type := mkQuestion {
  qid : string;
  name : string;
  label : string;
  qtype : string;
  choices : list string;
  required : bool
}.

(** A value of an entry or of a record: what the collect form's widgets
    return.  [VDate] is a [datetime.date], [VDatetime] a
    [datetime.datetime], [VTimestamp] a [pd.Timestamp]; each carries its
    [str()]. *)
Inductive value : Type :=
  | VNone
  | VStr (s : string)
  | VInt (z : Z)
  | VFloat (x : Q)
  | VList (l : list string)
  | VDate (text : string)
  | VDatetime (text : string)
  | VTimestamp (text : string).

Record Project : Type := mkProject {
  pid : string;
  title : string;
  owner : string;
  created_at : string;
  form : list Question;
  data : list (gmap string value)
}.

Definition set_form (p : Project) (f : list Question) : Project :=
  mkProject (pid p) (title p) (owner p) (created_at p) f (data p).

Definition set_data (p : Project) (d : list (gmap string value)) : Project :=
  mkProject (pid p) (title p) (owner p) (created_at p) (form p) d.

(** [new_id(prefix)] at the clock reading [t] (milliseconds) *)
Definition new_id (prefix : string) (t : Z) : string :=
  prefix +:+ "_" +:+ pretty t.

(** ** XLSForm export *)

Definition is_select (t : string) : bool :=
  bool_decide (t ∈ ["select_one"; "select_multiple"]).

Definition qtype_str (q : Question) : string :=
  if is_select (qtype q) then qtype q +:+ " " +:+ name q else qtype q.

Definition survey_columns : list string := ["type"; "name"; "label"; "required"].
Definition choices_columns : list string := ["list_name"; "name"; "label"].

Definition survey_record (q : Question) : list string :=
  [qtype_str q; name q; label q; if required q then "yes" else ""].

Definition survey_data (f : list Question) : list (list string) :=
  survey_record <$> f.

(** the rows of one question: [enumerate(q["choices"], start=1)] *)
Definition choice_records (q : Question) : list (list string) :=
  match choices q with
  | [] => []
  | chs => imap (λ i ch, [name q; "opt" +:+ pretty (S i); ch]) chs
  end.

Definition choices_data (f : list Question) : list (list string) :=
  f ≫= choice_records.

(** The workbook that [export_xlsform_to_bytes] writes. *)
Definition export_xlsform_to_bytes (p : Project) : Workbook string :=
  ("survey", DataFrame survey_columns (survey_data (form p))) ::
  match choices_data (form p) with
  | [] => []
  | cd => [("choices", DataFrame choices_columns cd)]
  end.

(** ** Text that pandas reads back *)

(** The texts, other than the empty one, that [read_excel] and [read_csv]
    read as a missing value whatever else their column holds. *)
Definition na_values : list string :=
  ["#N/A"; "#N/A N/A"; "#NA"; "-1.#IND"; "-1.#QNAN"; "-NaN"; "-nan"; "1.#IND";
   "1.#QNAN"; "<NA>"; "N/A"; "NA"; "NULL"; "NaN"; "n/a"; "nan"; "null"].

(** the prefixes of a text that the workbook writer writes as a link *)
Definition url_prefixes : list string :=
  ["http://"; "https://"; "ftp://"; "ftps://"; "mailto:"; "internal:"; "external:"].

(** the texts that the workbook writer of the older copy of the program
    writes as error values, which are read as missing *)
Definition error_codes : list string :=
  ["#NULL!"; "#DIV/0!"; "#VALUE!"; "#REF!"; "#NAME?"; "#NUM!"].

(** the words that pandas may read as a number, a boolean or, in some of
    its versions, a missing value *)
Definition special_words : list string :=
  ["inf"; "+inf"; "-inf"; "infinity"; "+infinity"; "-infinity"; "nan"; "true";
   "false"; "none"].

(** the characters of a numeral: white space around it, digits, a sign, a
    point and the mark of an exponent *)
Definition numeral_char (c : ascii) : bool :=
  Py.isspace c || Py.is_digit c
  || bool_decide (c ∈ ["+"%char; "-"%char; "."%char; "e"%char; "E"%char]).

Fixpoint numeral_like (s : string) : bool :=
  match s with
  | EmptyString => true
  | String c r => numeral_char c && numeral_like r
  end.

Definition is_control (c : ascii) : bool :=
  (nat_of_ascii c <? 32)%nat || (nat_of_ascii c =? 127)%nat.

Fixpoint has_control (s : string) : bool :=
  match s with
  | EmptyString => false
  | String c r => is_control c || has_control r
  end.

(** The texts that may come back changed, depending on the rest of their
    column and on the versions of the libraries: a text of the characters
    of a numeral only (a column of numerals is read as numbers), a text
    that starts as a formula does for the workbook writer or as a link
    does, one of the [error_codes], one of the [special_words] in any
    case of its letters, a text with a control character, and a text
    longer than a cell of a workbook holds.  No other text is among
    them: a text that is not [special] and no marker of a missing value
    is read as it was written, and it keeps its column a column of text. *)
Definition special (s : string) : bool :=
  numeral_like s
  || match s with
     | EmptyString => false
     | String c _ => bool_decide (c ∈ ["="%char; "{"%char])
     end
  || existsb (Py.startswith s) url_prefixes
  || bool_decide (s ∈ error_codes)
  || bool_decide (Py.lower (Py.strip s) ∈ special_words)
  || has_control s
  || (32767 <? N.of_nat (String.length s))%N.

(** a numeral of digits only that fits a 64-bit integer, and its value *)
Fixpoint all_digits (s : string) : bool :=
  match s with
  | EmptyString => true
  | String c r => Py.is_digit c && all_digits r
  end.

Definition digits_only (s : string) : bool :=
  Py.nonempty s && all_digits s && (String.length s <=? 18)%nat.

Fixpoint digits_value (acc : Z) (s : string) : Z :=
  match s with
  | EmptyString => acc
  | String c r => digits_value (10 * acc + Z.of_nat (nat_of_ascii c - 48)) r
  end.

(** a text that is read back as it was written *)
Definition plain (s : string) : bool :=
  Py.nonempty s && negb (bool_decide (s ∈ na_values)) && negb (special s).

Section Reader.

(** what pandas makes of the [special] text [s] in a column that was
    written from the texts [col], when not every text of the column is a
    numeral of digits only *)
Variable reinterpret : list string → string → cell.

(** What [pd.read_excel] returns for a cell of a sheet written by
    [to_excel], and [pd.read_csv] for a field written by [to_csv], from
    the text [s] in a column written from the texts [col]: the writer
    leaves the cell of an empty string blank, a blank cell and a marker
    of a missing value are read as missing, a column in which every text
    is a numeral of digits only is read as a column of integers (007 as
    7), and a [plain] text is read as it was written. *)
Definition read_cell (col : list string) (s : string) : cell :=
  if negb (Py.nonempty s) || bool_decide (s ∈ na_values) then NaN
  else if special s then
    if forallb digits_only col then CInt (digits_value 0 s)
    else reinterpret col s
  else CStr s.

(** the texts of column [j] of the written rows *)
Definition column (j : nat) (records : list (list string)) : list string :=
  (λ r : list string, default "" (r !! j)) <$> records.

(** one of the written rows [records], as it is read *)
Definition read_row (records : list (list string)) (r : list string) : list cell :=
  imap (λ j s, read_cell (column j records) s) r.

(** A sheet written from a frame with no column is read as a frame with
    no column. *)
Definition read_frame (df : Frame string) : Frame cell :=
  mkFrame (columns df) (read_row (rows df) <$> rows df).

Definition read_back (wb : Workbook string) : Workbook cell :=
  prod_map id read_frame <$> wb.

End Reader.

(** ** XLSForm import *)

(** The uploaded bytes as [pd.ExcelFile] and [pd.read_excel] see them:
    either they raise ([e] is the exception's text) or they yield the
    sheets. *)
Inductive upload : Type :=
  | Unreadable (e : string)
  | Readable (xls : Workbook cell).

(** the text of one row of the choices sheet: its label, else its name *)
Definition choice_text (cols : list string) (choice_row : list cell) : option string :=
  if has_col cols "label" && negb (isna (item cols choice_row "label"))
  then Some (py_str (item cols choice_row "label"))
  else if has_col cols "name" && negb (isna (item cols choice_row "name"))
  then Some (py_str (item cols choice_row "name"))
  else None.

(** [choices_df[choices_df['list_name'] == list_name]], then the loop over
    its rows *)
Definition list_choices (choices_df : option (Frame cell)) (list_name : string) : list string :=
  match choices_df with
  | Some df =>
      if has_col (columns df) "list_name" then
        omap (choice_text (columns df))
          (filter (λ r, cell_eq_str (item (columns df) r "list_name") list_name = true)
                  (rows df))
      else []
  | None => []
  end.

(** [row['required'] if 'required' in row and not pd.isna(row['required'])
    else False]; [None] stands for the [False] *)
Definition required_cell (cols : list string) (row : list cell) : option cell :=
  if has_col cols "required" && negb (isna (item cols row "required"))
  then Some (item cols row "required")
  else None.

Definition required_words : list string := ["yes"; "true"; "1"; "required"].

(** [bool(q_required and str(q_required).lower() in [...])] *)
Definition required_flag (q_required : option cell) : bool :=
  match q_required with
  | Some c => truthy c && bool_decide (Py.lower (py_str c) ∈ required_words)
  | None => false
  end.

Definition starts_select (q_type : string) : bool :=
  Py.startswith q_type "select_one" || Py.startswith q_type "select_multiple".

Definition normalized_type (q_type : string) : string :=
  if Py.startswith q_type "select_one" then "select_one"
  else if Py.startswith q_type "select_multiple" then "select_multiple"
  else q_type.

(** One pass of the loop over the survey rows at the clock reading [t]:
    [None] is the [continue]. *)
Definition import_row (cols : list string) (choices_df : option (Frame cell))
    (row : list cell) (t : Z) : option Question :=
  if isna (item cols row "type") || isna (item cols row "name")
     || isna (item cols row "label")
  then None
  else
    let q_type := py_str (item cols row "type") in
    let q_name := py_str (item cols row "name") in
    let q_label := py_str (item cols row "label") in
    let q_required := required_cell cols row in
    let chs :=
      if starts_select q_type then
        let list_name :=
          if Py.contains " " q_type then Py.after_first " " q_type else q_name in
        list_choices choices_df list_name
      else [] in
    Some (mkQuestion (new_id "q" t) q_name q_label (normalized_type q_type)
            chs (required_flag q_required)).

(** The loop; [clock i] is the clock reading while row [i] is processed. *)
Fixpoint import_rows (cols : list string) (choices_df : option (Frame cell))
    (clock : nat → Z) (i : nat) (rs : list (list cell)) : list Question :=
  match rs with
  | [] => []
  | row :: r =>
      match import_row cols choices_df row (clock i) with
      | Some q => q :: import_rows cols choices_df clock (S i) r
      | None => import_rows cols choices_df clock (S i) r
      end
  end.

(** the first of [type], [name], [label] that the survey sheet lacks *)
Definition missing_column (cols : list string) : option string :=
  List.find (λ col, negb (has_col cols col)) ["type"; "name"; "label"].

(** [import_xlsform(file_bytes, project)]: the returned flag, the messages
    given to [st.error], and the project afterwards.  [sheet xls n] is
    [None] when [n not in xls.sheet_names]. *)
Definition import_xlsform (file_bytes : upload) (p : Project) (clock : nat → Z)
    : bool * list string * Project :=
  match file_bytes with
  | Unreadable e => (false, ["Error importing XLSForm: " +:+ e], p)
  | Readable xls =>
      match sheet xls "survey" with
      | None => (false, ["XLSForm must contain a 'survey' sheet"], p)
      | Some survey_df =>
          match missing_column (columns survey_df) with
          | Some col =>
              (false, ["XLSForm must contain '" +:+ col +:+ "' column in survey sheet"], p)
          | None =>
              let questions :=
                import_rows (columns survey_df) (sheet xls "choices") clock 0
                  (rows survey_df) in
              (true, [], set_form p (form p ++ questions))
          end
      end
  end.

(** ** Form designer *)

(** the values of the widgets of the Add Question form *)
Record q_form : Type := mkQForm {
  q_label : string;
  q_type : string;
  q_required : bool;
  q_choices : string;
  q_name : string
}.

Fixpoint map_chars (f : ascii → ascii) (s : string) : string :=
  match s with
  | EmptyString => EmptyString
  | String c r => String (f c) (map_chars f r)
  end.

(** ["".join(ch if ch.isalnum() else "_" for ch in q_label.strip()).lower()]
    for a label of ASCII characters; on other characters Python's
    [isalnum], [strip] and [lower] follow Unicode, which this function
    does not. *)
Definition base_name (q_label : string) : string :=
  Py.lower (map_chars (λ ch, if Py.isalnum ch then ch else "_"%char) (Py.strip q_label)).

(** The [while candidate in existing_names] loop, run for at most [fuel]
    tests of its condition. *)
Fixpoint name_loop (fuel : nat) (existing_names : list string) (base candidate : string)
    (suffix : nat) : option string :=
  match fuel with
  | O => None
  | S fuel' =>
      if bool_decide (candidate ∈ existing_names)
      then name_loop fuel' existing_names base (base +:+ "_" +:+ pretty suffix) (S suffix)
      else Some candidate
  end.

(** the generated variable name: one test more than there are names *)
Definition auto_name (f : list Question) (q_label : string) : option string :=
  let base := base_name q_label in
  let existing_names := name <$> f in
  let candidate := if Py.nonempty base then base else "q" +:+ pretty (S (length f)) in
  name_loop (S (length f)) existing_names base candidate 1.

(** [[c.strip() for c in q_choices.splitlines() if c.strip()] if q_choices
    else []] *)
Definition parse_choices (q_choices : string) : list string :=
  if Py.nonempty q_choices
  then filter (λ c, Py.nonempty c = true) (Py.strip <$> Py.splitlines q_choices)
  else [].

(** The Add Question handler at the clock reading [t]: the messages given
    to [st.error] and the project afterwards; [None] only if the loop ran
    out of tests. *)
Definition add_question (w : q_form) (p : Project) (t : Z) : option (list string * Project) :=
  if negb (Py.nonempty (Py.strip (q_label w)))
  then Some (["Question label is required."], p)
  else
    let q_choices := if is_select (q_type w) then q_choices w else "" in
    n ← (if negb (Py.nonempty (Py.strip (q_name w)))
          then auto_name (form p) (q_label w)
          else Some (Py.strip (q_name w)));
    Some ([], set_form p (form p ++
      [mkQuestion (new_id "q" t) n (Py.strip (q_label w)) (q_type w)
         (parse_choices q_choices) (q_required w)])).

(** [l.pop(i)]: a negative index counts from the end, and [None] is the
    [IndexError]. *)
Definition py_pop {A : Type} (l : list A) (i : Z) : option (A * list A) :=
  let n := Z.of_nat (length l) in
  let j := if (i <? 0)%Z then (i + n)%Z else i in
  if (0 <=? j)%Z && (j <? n)%Z
  then (λ x, (x, delete (Z.to_nat j) l)) <$> l !! Z.to_nat j
  else None.

(** The Delete Question handler for the entered number [del_idx]: the
    message given to [st.success] and the project afterwards. *)
Definition delete_question (del_idx : Z) (p : Project) : option (string * Project) :=
  '(removed, f) ← py_pop (form p) (del_idx - 1);
  Some ("Deleted question: " +:+ label removed, set_form p f).

(** ** Submission recorder *)

(** [entry.get(name) in (None, "", [], 0)] *)
Definition value_missing (v : option value) : bool :=
  match v with
  | None => true
  | Some VNone => true
  | Some (VStr s) => negb (Py.nonempty s)
  | Some (VList l) => match l with [] => true | _ => false end
  | Some (VInt z) => (z =? 0)%Z
  | Some (VFloat x) => Qeq_bool x 0%Q
  | Some (VDate _) | Some (VDatetime _) | Some (VTimestamp _) => false
  end.

Definition offending (entry : gmap string value) (q : Question) : bool :=
  required q && value_missing (entry !! name q).

Definition missing (f : list Question) (entry : gmap string value) : list string :=
  label <$> filter (λ q, offending entry q = true) f.

(** [str(v) if isinstance(v, (pd.Timestamp, datetime)) else v] *)
Definition normalize (v : value) : value :=
  match v with
  | VDatetime t => VStr t
  | VTimestamp t => VStr t
  | _ => v
  end.

(** [entry_meta = {"_submission_time": now}; entry_meta.update(entry)] for
    the normalized entry *)
Definition entry_meta (entry : gmap string value) (now : string) : gmap string value :=
  (normalize <$> entry) ∪ {[ "_submission_time" := VStr now ]}.

(** The Submit record handler up to the append to [project["data"]];
    [now] is [datetime.utcnow().isoformat()].  The messages given to
    [st.error] and the project afterwards.  The call of [save_projects]
    that follows the append is in [submit_handler]. *)
Definition submit_record (entry : gmap string value) (p : Project) (now : string)
    : list string * Project :=
  match missing (form p) entry with
  | [] => ([], set_data p (data p ++ [entry_meta entry now]))
  | m => (["Please fill required questions: " +:+ Py.join ", " m], p)
  end.

(** ** Credential store *)

Section Credentials.

(** [hashlib.sha256(password.encode()).hexdigest()] *)
Variable hash_password : string → string.

(** what [read_csv] makes of a [special] text of a column *)
Variable reinterpret : list string → string → cell.

(** [kc_users.csv]: the rows below its header, each the text of the user
    name field and of the password hash field; [None] when the file does
    not exist *)
Definition user_file : Type := option (list (string * string)).

(** the rows of the file once [ensure_user_file] has run *)
Definition ensure_user_file (fs : user_file) : list (string * string) :=
  match fs with
  | Some df => df
  | None => []
  end.

(** [pd.read_csv(USER_FILE)]: each of the two columns is read on its own *)
Definition read_csv (file : list (string * string)) : list (cell * cell) :=
  (λ r : string * string,
     (read_cell reinterpret file.*1 r.1, read_cell reinterpret file.*2 r.2)) <$> file.

(** the field that [to_csv] writes for a cell: nothing for a missing
    value, else its text *)
Definition csv_field (c : cell) : string :=
  if isna c then "" else py_str c.

(** [df.to_csv(USER_FILE, index=False)] *)
Definition to_csv (df : list (cell * cell)) : list (string * string) :=
  (λ r : cell * cell, (csv_field r.1, csv_field r.2)) <$> df.

(** [add_user(username, password)]: the returned flag and the file
    afterwards.  [username in df["username"].values] holds when a cell of
    the column is equal to the text [username], which a cell that is
    missing or a number is not. *)
Definition add_user (username password : string) (fs : user_file) : bool * user_file :=
  let df := read_csv (ensure_user_file fs) in
  if existsb (λ c, cell_eq_str c username) df.*1
  then (false, Some (ensure_user_file fs))
  else (true, Some (to_csv (df ++ [(CStr username, CStr (hash_password password))]))).

End Credentials.

(** ** Project store *)

Inductive exn : Type :=
  | JSONDecodeError
  | FileNotFoundError
  | UnicodeDecodeError
  | TypeError.

Inductive result (A : Type) : Type :=
  | Return (a : A)
  | Raise (e : exn).
Arguments Return {A} _.
Arguments Raise {A} _.

(** [kc_projects.json]: absent, or present with its bytes *)
Inductive document : Type :=
  | Absent
  | Present (bytes : string).

Definition store : Type := gmap string (gmap string Project).

Section ProjectStore.

(** the text of the bytes, [None] when they are not UTF-8 *)
Variable decode : string → option string.

(** the mapping that a JSON text denotes, [None] when the text is not JSON *)
Variable loads : string → option store.

(** [json.load(f)] for [f = open(PROJECTS_FILE, "r", encoding="utf-8")] *)
Definition json_load (bytes : string) : result store :=
  match decode bytes with
  | None => Raise UnicodeDecodeError
  | Some text =>
      match loads text with
      | None => Raise JSONDecodeError
      | Some m => Return m
      end
  end.

(** [load_projects] of [app.py]: the [try] with its
    [except (json.JSONDecodeError, FileNotFoundError)] *)
Definition load_projects (doc : document) : result store :=
  match doc with
  | Present bytes =>
      match json_load bytes with
      | Raise JSONDecodeError => Return ∅
      | Raise FileNotFoundError => Return ∅
      | r => r
      end
  | Absent => Return ∅
  end.

End ProjectStore.

Module Legacy.

(** [load_projects] of the older copy of the program: no [try] *)
Definition load_projects (decode : string → option string)
    (loads : string → option store) (doc : document) : result store :=
  match doc with
  | Present bytes => json_load decode loads bytes
  | Absent => Return ∅
  end.

(** [export_xlsform_to_bytes] of the older copy: both sheets are always
    written, each with its header row. *)
Definition export_xlsform_to_bytes (p : Project) : Workbook string :=
  [("survey", mkFrame survey_columns (survey_data (form p)));
   ("choices", mkFrame choices_columns (choices_data (form p)))].

End Legacy.

(** ** Authentication *)

Section Authentication.

(** [hashlib.sha256(password.encode()).hexdigest()] *)
Variable hash_password : string → string.

(** what [read_csv] makes of a [special] text of a column *)
Variable reinterpret : list string → string → cell.

(** [authenticate(username, password)]: the returned flag and the file
    afterwards.  [row] is the rows whose user name cell is the text
    [username]; the first of them decides, by whether its hash cell is
    the text of the hash. *)
Definition authenticate (username password : string) (fs : user_file) : bool * user_file :=
  let df := read_csv reinterpret (ensure_user_file fs) in
  match filter (λ r : cell * cell, cell_eq_str r.1 username = true) df with
  | [] => (false, Some (ensure_user_file fs))
  | r :: _ => (cell_eq_str r.2 (hash_password password), Some (ensure_user_file fs))
  end.

End Authentication.

(** ** Lists indexed as Python indexes them *)

(** the position that the index [i] denotes in [l]: a negative index
    counts from the end, and [None] is the [IndexError] *)
Definition py_index {A : Type} (l : list A) (i : Z) : option nat :=
  let n := Z.of_nat (length l) in
  let j := if (i <? 0)%Z then (i + n)%Z else i in
  if (0 <=? j)%Z && (j <? n)%Z then Some (Z.to_nat j) else None.

(** [l[i]] *)
Definition py_getitem {A : Type} (l : list A) (i : Z) : option A :=
  j ← py_index l i; l !! j.

(** [l[i] = x] *)
Definition py_setitem {A : Type} (l : list A) (i : Z) (x : A) : option (list A) :=
  j ← py_index l i; Some (<[j:=x]> l).

(** [l[a], l[b] = l[b], l[a]]: the right side is read first, then [l[a]]
    and [l[b]] are assigned in this order. *)
Definition py_swap {A : Type} (l : list A) (a b : Z) : option (list A) :=
  x ← py_getitem l b;
  y ← py_getitem l a;
  l1 ← py_setitem l a x;
  py_setitem l1 b y.

(** ** Reordering and clearing the form, deleting a submission *)

(** The Move Up handler for the entered number [idx_up]; [None] is an
    [IndexError]. *)
Definition move_up (idx_up : Z) (p : Project) : option Project :=
  let i := (idx_up - 1)%Z in
  if (0 <? i)%Z
  then set_form p <$> py_swap (form p) (i - 1) i
  else Some p.

(** The Move Down handler for the entered number [idx_down]. *)
Definition move_down (idx_down : Z) (p : Project) : option Project :=
  let i := (idx_down - 1)%Z in
  if (i <? Z.of_nat (length (form p)) - 1)%Z
  then set_form p <$> py_swap (form p) (i + 1) i
  else Some p.

(** The Clear all questions handler. *)
Definition clear_all (p : Project) : Project :=
  mkProject (pid p) (title p) (owner p) (created_at p) [] [].

(** The Delete Submission handler for the entered number [idx_to_delete]:
    the message given to [st.success] and the project afterwards. *)
Definition delete_submission (idx_to_delete : Z) (p : Project) : option (string * Project) :=
  '(removed, d) ← py_pop (data p) (idx_to_delete - 1);
  Some ("Deleted submission #" +:+ pretty idx_to_delete +:+ ".", set_data p d).

(** ** Collecting an entry *)

(** What the user has entered in the widgets of the collect form, by
    question name (the widget of the question [qn] has the key [c_qn]). *)
Record widgets : Type := mkWidgets {
  text_input : string → string;
  number_input : string → Q;
  date_input : string → string;
  selectbox : string → string;
  multiselect : string → list string
}.

(** the types for which the collect form makes a widget *)
Definition widget_types : list string :=
  ["text"; "integer"; "decimal"; "date"; "select_one"; "select_multiple"].

(** One pass of the loop that fills [entry]: a note sets [None], and a
    type that is none of the seven sets nothing. *)
Definition collect_step (w : widgets) (entry : gmap string value) (q : Question)
    : gmap string value :=
  let qn := name q in
  let qtype := qtype q in
  if decide (qtype = "text") then <[qn := VStr (text_input w qn)]> entry
  else if decide (qtype = "integer") then <[qn := VFloat (number_input w qn)]> entry
  else if decide (qtype = "decimal") then <[qn := VFloat (number_input w qn)]> entry
  else if decide (qtype = "date") then <[qn := VDate (date_input w qn)]> entry
  else if decide (qtype = "note") then <[qn := VNone]> entry
  else if decide (qtype = "select_one") then <[qn := VStr (selectbox w qn)]> entry
  else if decide (qtype = "select_multiple") then <[qn := VList (multiselect w qn)]> entry
  else entry.

(** the keys of the widgets of the collect form, without their prefix *)
Definition widget_keys (f : list Question) : list string :=
  name <$> filter (λ q, qtype q ∈ widget_types) f.

(** The entry that the collect form builds; [None] when two widgets have
    the same key, which Streamlit refuses. *)
Definition collect_entry (f : list Question) (w : widgets) : option (gmap string value) :=
  if bool_decide (NoDup (widget_keys f))
  then Some (foldl (collect_step w) ∅ f)
  else None.

(** Submit record on the collect form of a project with questions. *)
Definition collect_submit (w : widgets) (p : Project) (now : string)
    : option (list string * Project) :=
  entry ← collect_entry (form p) w;
  Some (submit_record entry p now).

(** ** Projects of a user *)

(** [create_empty_project(owner, title)] at the clock reading [t], with
    [now] the [isoformat] of the clock *)
Definition create_empty_project (owner title : string) (t : Z) (now : string)
    : string * Project :=
  let pid := new_id "proj" t in
  (pid, mkProject pid title owner now [] []).

(** [projects.get(user, {})] *)
Definition user_projects (user : string) (s : store) : gmap string Project :=
  default ∅ (s !! user).

(** [if user not in projects: projects[user] = {}] *)
Definition ensure_container (user : string) (s : store) : store :=
  match s !! user with
  | Some _ => s
  | None => <[user := ∅]> s
  end.

(** The Create Project handler, once the user has a container: the
    messages given to [st.warning], the projects and the current project
    afterwards. *)
Definition create_project (user new_title : string) (s : store) (cur : option string)
    (t : Z) (now : string) : list string * store * option string :=
  if negb (Py.nonempty (Py.strip new_title))
  then (["Please provide a project title."], s, cur)
  else
    let '(pid, project) := create_empty_project user (Py.strip new_title) t now in
    ([], <[user := <[pid := project]> (user_projects user s)]> s, Some pid).

(** The Delete Current Project handler for the current project [pid];
    [None] is the [KeyError] of a project that is not there. *)
Definition delete_current_project (user pid : string) (s : store)
    : option (string * store * option string) :=
  ps ← s !! user;
  project ← ps !! pid;
  Some ("Project '" +:+ title project +:+ "' deleted.", <[user := delete pid ps]> s, None).

(** ** Saving after a submission *)

(** what [json.dump] can write: not a date, a datetime or a Timestamp *)
Definition serializable (v : value) : bool :=
  match v with
  | VDate _ | VDatetime _ | VTimestamp _ => false
  | _ => true
  end.

Definition dumpable (p : Project) : bool :=
  forallb (λ r : gmap string value,
             bool_decide (map_Forall (λ _ v, serializable v = true) r)) (data p).

(** [save_projects(data)]: [json.dump] raises [TypeError] when a record
    of a project holds a value that it cannot write. *)
Definition save_projects (s : store) : result unit :=
  if bool_decide (map_Forall (λ _ ps, map_Forall (λ _ p, dumpable p = true) ps) s)
  then Return tt
  else Raise TypeError.

(** [st.session_state.projects[user][pid] = project] *)
Definition put_project (user pid : string) (p : Project) (s : store) : store :=
  <[user := <[pid := p]> (user_projects user s)]> s.

(** The Submit record handler with its end: after the append the project
    is put among the projects of the user and [save_projects] is called.
    The messages given to [st.error], the project and the projects
    afterwards, and the exception that ends the handler, if any. *)
Definition submit_handler (entry : gmap string value) (user pid : string)
    (p : Project) (s : store) (now : string)
    : list string * Project * store * option exn :=
  match submit_record entry p now with
  | ([], p') =>
      let s' := put_project user pid p' s in
      ([], p', s',
       match save_projects s' with
       | Raise e => Some e
       | Return _ => None
       end)
  | (errs, p') => (errs, p', s, None)
  end.

(** a reader that returns every [special] text as it was written *)
Definition as_written (col : list string) (s : string) : cell := CStr s.

(** ** A project to evaluate on *)

Definition q_name_ex : Question := mkQuestion "q_1" "name" "Name" "text" [] true.
Definition q_age_ex : Question := mkQuestion "q_2" "age" "Age" "integer" [] false.
Definition q_gender_ex : Question :=
  mkQuestion "q_3" "gender" "Gender" "select_one" ["M"; "F"] false.

Definition census : Project :=
  mkProject "proj_1" "Census" "ann" "2024-05-01T09:00:00"
    [q_name_ex; q_age_ex; q_gender_ex]
    [{[ "_submission_time" := VStr "2024-05-01T10:00:00"; "name" := VStr "Alice" ]};
     {[ "_submission_time" := VStr "2024-05-01T11:00:00"; "name" := VStr "Bob" ]}].

(** ** Rows of a survey sheet *)

(** a row that the import loop does not skip: type, name and label are
    all there *)
Definition complete (cols : list string) (row : list cell) : bool :=
  negb (isna (item cols row "type") || isna (item cols row "name")
        || isna (item cols row "label")).

(** ** Predicates of the statements *)

(** The uploads on which the import fails: unreadable bytes, no survey
    sheet, or a survey sheet that lacks one of [type], [name], [label]. *)
Definition broken (file_bytes : upload) : bool :=
  match file_bytes with
  | Unreadable _ => true
  | Readable xls =>
      match sheet xls "survey" with
      | None => true
      | Some survey_df =>
          negb (forallb (has_col (columns survey_df)) ["type"; "name"; "label"])
      end
  end.

Definition names (p : Project) : list string := name <$> form p.

Definition suffixed (base : string) (k : nat) : string := base +:+ "_" +:+ pretty k.

Definition offenders (f : list Question) (entry : gmap string value) : list Question :=
  filter (λ q, offending entry q = true) f.

Definition supported_types : list string :=
  ["text"; "integer"; "decimal"; "date"; "select_one"; "select_multiple"; "note"].

(** what is compared across the round trip: all of a question but its id *)
Definition content (q : Question) : string * string * string * bool * list string :=
  (name q, label q, qtype q, required q, choices q).

(** A question as the round-trip claim takes it: name and label not blank,
    a supported type, and choices exactly for the select types. *)
Definition well_formed (q : Question) : bool :=
  Py.nonempty (Py.strip (name q)) && Py.nonempty (Py.strip (label q))
  && bool_decide (qtype q ∈ supported_types)
  && Bool.eqb (bool_decide (choices q ≠ [])) (is_select (qtype q)).

(** What the round trip needs: the name, the label, the written type
    cell and every choice are [plain], the type is a supported one, and
    there are choices exactly for the select types. *)
Definition valid_question (q : Question) : bool :=
  plain (name q) && plain (label q) && plain (qtype_str q)
  && bool_decide (qtype q ∈ supported_types)
  && Bool.eqb (bool_decide (choices q ≠ [])) (is_select (qtype q))
  && forallb plain (choices q).

Definition select_names (f : list Question) : list string :=
  name <$> filter (λ q, is_select (qtype q) = true) f.

Definition valid_form (f : list Question) : bool :=
  forallb valid_question f && bool_decide (NoDup (select_names f)).

Section ReadBack.

Variable reinterpret : list string → string → cell.

(** the choices sheet of the exported workbook as it is read back *)
Definition exported_choices (f : list Question) : option (Frame cell) :=
  match choices_data f with
  | [] => None
  | cd => Some (read_frame reinterpret (DataFrame choices_columns cd))
  end.

(** export, then import into [p0] *)
Definition reimport (p p0 : Project) (clock : nat → Z) : bool * list string * Project :=
  import_xlsform (Readable (read_back reinterpret (export_xlsform_to_bytes p))) p0 clock.

(** the choices that the rows [records] of a choices sheet written from
    the rows [sheet_rows] give to the list [n] *)
Definition rows_choices (sheet_rows records : list (list string)) (n : string)
    : list string :=
  omap (choice_text choices_columns)
    (filter (λ r, cell_eq_str (item choices_columns r "list_name") n = true)
            (read_row reinterpret sheet_rows <$> records)).

End ReadBack.


(** a table of users in which every field is [plain] *)
Definition plain_table (file : list (string * string)) : bool :=
  forallb (λ r : string * string, plain r.1 && plain r.2) file.

(** the cells of a table whose fields are all read as written *)
Definition text_cells (df : list (string * string)) : list (cell * cell) :=
  (λ r : string * string, (CStr r.1, CStr r.2)) <$> df.

(** a text of ASCII characters *)
Fixpoint ascii_text (s : string) : bool :=
  match s with
  | EmptyString => true
  | String c r => (nat_of_ascii c <? 128)%nat && ascii_text r
  end.

(** ** Import: failure and frame *)

(** [sheet xls n] is [None] exactly when [n not in xls.sheet_names]. *)
Lemma sheet_None {A : Type} (wb : Workbook A) (n : string) :
  sheet wb n = None ↔ n ∉ sheet_names wb.
Proof.
  unfold sheet_names. induction wb as [|[m df] wb IH]; simpl.
  - split; [intros _; apply not_elem_of_nil|done].
  - rewrite not_elem_of_cons. case_decide as Hm; [naive_solver|].
    rewrite IH. naive_solver.
Qed.

Lemma set_form_same p : set_form p (form p) = p.
Proof. by destruct p. Qed.

Lemma missing_column_None cols :
  missing_column cols = None ↔ forallb (has_col cols) ["type"; "name"; "label"] = true.
Proof.
  unfold missing_column. simpl.
  destruct (has_col cols "type"), (has_col cols "name"), (has_col cols "label");
    simpl; split; intros; congruence.
Qed.

Lemma missing_column_Some cols col :
  missing_column cols = Some col → col ∈ ["type"; "name"; "label"] ∧ has_col cols col = false.
Proof.
  unfold missing_column. intros H. apply List.find_some in H as [Hin Hc].
  split; [by apply list_elem_of_In | by apply negb_true_iff].
Qed.

(** C3. An upload that cannot be read, or has no survey sheet, or whose
    survey sheet lacks one of type, name, label, makes [import_xlsform]
    return [False] with one non-empty message and the project exactly as
    it was; and whenever the import returns [False], the upload was such a
    one and the project is exactly as it was. *)
Theorem import_xlsform_atomic file_bytes p clock :
  broken file_bytes = true →
  (∃ msg, Py.nonempty msg = true ∧
          import_xlsform file_bytes p clock = (false, [msg], p)) ∧
  (∀ file' clock', (import_xlsform file' p clock').1.1 = false →
                   (import_xlsform file' p clock').2 = p ∧ broken file' = true).
Proof.
  intros Hb. split.
  - destruct file_bytes as [e|xls]; unfold broken in Hb; unfold import_xlsform.
    + eexists. split; [|reflexivity]. done.
    + destruct (sheet xls "survey") as [df|]; [|eexists; split; [|reflexivity]; done].
      destruct (missing_column (columns df)) as [col|] eqn:Hm.
      * eexists. split; [|reflexivity]. done.
      * apply missing_column_None in Hm. rewrite Hm in Hb. done.
  - intros [e|xls] clock'; unfold broken, import_xlsform; [done|].
    destruct (sheet xls "survey") as [df|]; [|done].
    destruct (missing_column (columns df)) as [col|] eqn:Hm; [|done].
    intros _. split; [done|].
    apply missing_column_Some in Hm as [Hin Hc].
    apply negb_true_iff, not_true_is_false. intros Hall.
    rewrite forallb_forall in Hall.
    apply list_elem_of_In, Hall in Hin. congruence.
Qed.

Lemma import_xlsform_atomic_witness :
  ∃ msg, import_xlsform (Readable [("survey", mkFrame ["type"; "label"] [[CStr "text"; CStr "A"]])])
           (mkProject "proj_1" "Census" "ann" "2024" [] []) (λ _, 0%Z)
         = (false, [msg], mkProject "proj_1" "Census" "ann" "2024" [] []).
Proof.
  destruct (import_xlsform_atomic
              (Readable [("survey", mkFrame ["type"; "label"] [[CStr "text"; CStr "A"]])])
              (mkProject "proj_1" "Census" "ann" "2024" [] []) (λ _, 0%Z)) as [[msg [_ H]] _].
  - reflexivity.
  - exists msg. exact H.
Defined.

(** C10. Whatever the upload, [import_xlsform] leaves the project as it was
    except that it appends questions to the form: the records, the id, the
    title, the owner and the creation time are the same, and every
    question that was in the form is still at its position. *)
Theorem import_xlsform_frame file_bytes p clock :
  let p' := (import_xlsform file_bytes p clock).2 in
  (∃ questions, p' = set_form p (form p ++ questions)) ∧
  data p' = data p ∧
  pid p' = pid p ∧ title p' = title p ∧ owner p' = owner p ∧
  created_at p' = created_at p ∧
  (∀ i q, form p !! i = Some q → form p' !! i = Some q) ∧
  ((import_xlsform file_bytes p clock).1.1 = false → p' = p).
Proof.
  assert (H : ∃ questions,
             (import_xlsform file_bytes p clock).2 = set_form p (form p ++ questions)
             ∧ ((import_xlsform file_bytes p clock).1.1 = false → questions = [])).
  { destruct file_bytes as [e|xls]; simpl.
    - exists []. by rewrite app_nil_r, set_form_same.
    - destruct (sheet xls "survey") as [df|].
      + destruct (missing_column (columns df)).
        * exists []. by rewrite app_nil_r, set_form_same.
        * eexists. split; [reflexivity|done].
      + exists []. by rewrite app_nil_r, set_form_same. }
  destruct H as [qs [Hq Hf]]. simpl. rewrite Hq. simpl.
  repeat split; try done.
  - by exists qs.
  - intros i q Hi. by apply lookup_app_l_Some.
  - intros Hfalse. rewrite (Hf Hfalse), app_nil_r. apply set_form_same.
Qed.

(** ** Deleting a question *)

Lemma py_pop_in_range {A : Type} (l : list A) (i : nat) x :
  l !! i = Some x → py_pop l (Z.of_nat i) = Some (x, delete i l).
Proof.
  intros Hx. pose proof (lookup_lt_Some _ _ _ Hx) as Hlt.
  unfold py_pop.
  destruct (Z.ltb_spec (Z.of_nat i) 0); [lia|].
  destruct (Z.leb_spec 0 (Z.of_nat i)); [|lia].
  destruct (Z.ltb_spec (Z.of_nat i) (Z.of_nat (length l))); [|lia].
  simpl. rewrite Nat2Z.id, Hx. done.
Qed.

(** C8. Deleting question number [k] of a form with at least [k]
    questions removes that question only: the questions before it stay
    where they are, the questions after it move up by one, each as it was,
    and the records and the other fields of the project are the same. *)
Theorem delete_question_frame (p : Project) (k : Z) :
  (1 ≤ k ≤ Z.of_nat (length (form p)))%Z →
  ∃ removed p',
    delete_question k p = Some ("Deleted question: " +:+ label removed, p') ∧
    form p !! Z.to_nat (k - 1) = Some removed ∧
    length (form p') = pred (length (form p)) ∧
    (∀ i, (i < Z.to_nat (k - 1))%nat → form p' !! i = form p !! i) ∧
    (∀ i, (Z.to_nat (k - 1) ≤ i)%nat → form p' !! i = form p !! S i) ∧
    data p' = data p ∧
    pid p' = pid p ∧ title p' = title p ∧ owner p' = owner p ∧
    created_at p' = created_at p.
Proof.
  intros Hk.
  destruct (lookup_lt_is_Some_2 (form p) (Z.to_nat (k - 1))) as [removed Hr]; [lia|].
  exists removed, (set_form p (delete (Z.to_nat (k - 1)) (form p))).
  split.
  { unfold delete_question.
    replace (k - 1)%Z with (Z.of_nat (Z.to_nat (k - 1))) at 1 by lia.
    rewrite (py_pop_in_range _ _ _ Hr). done. }
  split; [done|]. simpl.
  split; [rewrite length_delete by eauto; lia|].
  split; [intros i Hi; by apply list_lookup_delete_lt|].
  split; [intros i Hi; by apply list_lookup_delete_ge|].
  done.
Qed.

Lemma delete_question_frame_witness :
  ∃ p', delete_question 2
          (mkProject "proj_1" "Census" "ann" "2024"
             [mkQuestion "q_1" "a" "A" "text" [] true;
              mkQuestion "q_2" "b" "B" "integer" [] false;
              mkQuestion "q_3" "c" "C" "note" [] false]
             [{[ "a" := VStr "x" ]}]) = Some ("Deleted question: B", p').
Proof.
  destruct (delete_question_frame
              (mkProject "proj_1" "Census" "ann" "2024"
                 [mkQuestion "q_1" "a" "A" "text" [] true;
                  mkQuestion "q_2" "b" "B" "integer" [] false;
                  mkQuestion "q_3" "c" "C" "note" [] false]
                 [{[ "a" := VStr "x" ]}]) 2)
    as (removed & p' & Hd & Hr & _).
  - simpl. lia.
  - exists p'. simpl in Hr. injection Hr as <-. exact Hd.
Defined.

(** ** The required flag of an imported row *)











(** ** Reading text back *)

Lemma read_cell_plain reinterpret col s :
  plain s = true → read_cell reinterpret col s = CStr s.
Proof.
  unfold plain, read_cell. rewrite !andb_true_iff, !negb_true_iff.
  by intros [[-> ->] ->].
Qed.

Lemma read_cell_na reinterpret col s :
  s ∈ na_values → read_cell reinterpret col s = NaN.
Proof.
  intros Hin. unfold read_cell. rewrite (bool_decide_eq_true_2 _ Hin).
  by rewrite orb_true_r.
Qed.

Lemma read_cell_yes reinterpret col : read_cell reinterpret col "yes" = CStr "yes".
Proof. apply read_cell_plain. vm_compute. reflexivity. Qed.

(** A text cell that is read from a text that is not [special] holds
    that text, and that text is no marker of a missing value. *)
Lemma read_cell_text reinterpret col s t :
  special s = false → read_cell reinterpret col s = CStr t →
  t = s ∧ s ∉ na_values.
Proof.
  intros Hs. unfold read_cell. rewrite Hs.
  destruct (Py.nonempty s); simpl; [|done].
  case_bool_decide; [done|]. by intros [= ->].
Qed.

(** ** Registering a user *)

Section CredentialFacts.

Variable hash_password : string → string.
Variable reinterpret : list string → string → cell.

Lemma existsb_cell_eq_str (cells : list cell) (s : string) :
  existsb (λ c, cell_eq_str c s) cells = true ↔ CStr s ∈ cells.
Proof.
  rewrite existsb_exists. split.
  - intros (c & Hin & Hc). apply list_elem_of_In in Hin.
    destruct c; simpl in Hc; try done. apply bool_decide_eq_true in Hc. by subst.
  - intros Hin. exists (CStr s). split; [by apply list_elem_of_In|].
    simpl. by apply bool_decide_eq_true.
Qed.

(** C7, at a user name for which the claim fails.  The user name is one
    of the markers of a missing value, such as NA, and the table, in
    which no user name is [special], has it in row [i].  [read_csv]
    reads that name as a missing value, the test of line 44 finds no such
    user, and [add_user] returns [True]: it writes the table back with
    one more row for the name, and with an empty user name in row [i]. *)
Theorem add_user_misses_marker (username password h : string) (fs : user_file)
    (i : nat) :
  username ∈ na_values →
  ensure_user_file fs !! i = Some (username, h) →
  (∀ r, r ∈ ensure_user_file fs → special r.1 = false) →
  ∃ df' h',
    add_user hash_password reinterpret username password fs
    = (true, Some (df' ++ [(username, hash_password password)])) ∧
    length df' = length (ensure_user_file fs) ∧
    df' !! i = Some ("", h').
Proof.
  intros Hna Hi Hsp. unfold add_user.
  set (df := ensure_user_file fs) in *.
  assert (Hno : existsb (λ c, cell_eq_str c username) (read_csv reinterpret df).*1
                = false).
  { apply not_true_is_false. rewrite existsb_cell_eq_str.
    intros Hin. apply list_elem_of_fmap in Hin as ([c1 c2] & Hc & Hin).
    simpl in Hc. subst c1. unfold read_csv in Hin.
    apply list_elem_of_fmap in Hin as (r & Hr & Hin). injection Hr as Hr _.
    symmetry in Hr. apply read_cell_text in Hr as [-> Hr]; [done|].
    by apply Hsp. }
  rewrite Hno.
  exists (to_csv (read_csv reinterpret df)),
         (csv_field (read_cell reinterpret df.*2 h)).
  split; [|split].
  - unfold to_csv. by rewrite fmap_app.
  - unfold to_csv, read_csv. by rewrite !length_fmap.
  - unfold to_csv, read_csv. rewrite !list_lookup_fmap, Hi. simpl.
    by rewrite (read_cell_na _ _ _ Hna).
Qed.

End CredentialFacts.

Lemma add_user_misses_marker_witness :
  ∃ df' h',
    add_user (λ pw, "h(" +:+ pw +:+ ")") as_written "NA" "pw2"
      (Some [("ann", "h(pw1)"); ("NA", "h(x)")])
    = (true, Some (df' ++ [("NA", "h(pw2)")])) ∧
    length df' = 2%nat ∧
    df' !! 1%nat = Some ("", h').
Proof.
  apply (add_user_misses_marker (λ pw, "h(" +:+ pw +:+ ")") as_written
           "NA" "pw2" "h(x)" (Some [("ann", "h(pw1)"); ("NA", "h(x)")]) 1).
  - vm_compute. set_solver.
  - reflexivity.
  - intros r Hr. simpl in Hr.
    apply elem_of_cons in Hr as [->|Hr]; [reflexivity|].
    apply elem_of_cons in Hr as [->|Hr]; [reflexivity|].
    by apply elem_of_nil in Hr.
Defined.

(** The table after it: the first NA has lost its name. *)
Example add_user_NA_table :
  add_user (λ pw, "h(" +:+ pw +:+ ")") as_written "NA" "pw2"
    (Some [("ann", "h(pw1)"); ("NA", "h(x)")])
  = (true, Some [("ann", "h(pw1)"); ("", "h(x)"); ("NA", "h(pw2)")]).
Proof. vm_compute. reflexivity. Qed.

(** The same at its smallest: registering the user name NA twice succeeds
    twice, whatever [read_csv] makes of the hashes. *)
Example add_user_twice (hash_password : string → string)
    (reinterpret : list string → string → cell) (pw1 pw2 : string) :
  (add_user hash_password reinterpret "NA" pw1 None).1 = true ∧
  (add_user hash_password reinterpret "NA" pw2
     (add_user hash_password reinterpret "NA" pw1 None).2).1 = true.
Proof. split; reflexivity. Qed.

(** The same for a user name of digits only in a table of such names,
    which [read_csv] reads as a column of integers. *)
Example add_user_numeral_twice (hash_password : string → string)
    (reinterpret : list string → string → cell) (pw1 pw2 : string) :
  (add_user hash_password reinterpret "123" pw1 None).1 = true ∧
  (add_user hash_password reinterpret "123" pw2
     (add_user hash_password reinterpret "123" pw1 None).2).1 = true.
Proof. split; reflexivity. Qed.

(** ** Loading the project document *)

Section ProjectStoreFacts.

Variable decode : string → option string.
Variable loads : string → option store.

(** C6. On a document whose text is not JSON, the older copy of
    [load_projects], which has no handler, raises [JSONDecodeError], where
    the [load_projects] of [app.py] returns the empty mapping.  On bytes
    that are not UTF-8 both raise [UnicodeDecodeError]: the handler of
    [app.py] takes [JSONDecodeError] and [FileNotFoundError] only.  Both
    return the parsed mapping of a document that parses and the empty
    mapping when there is no document. *)
Theorem load_projects_malformed (bytes : string) :
  (∀ text, decode bytes = Some text → loads text = None →
     Legacy.load_projects decode loads (Present bytes) = Raise JSONDecodeError ∧
     load_projects decode loads (Present bytes) = Return ∅) ∧
  (decode bytes = None →
     Legacy.load_projects decode loads (Present bytes) = Raise UnicodeDecodeError ∧
     load_projects decode loads (Present bytes) = Raise UnicodeDecodeError) ∧
  (∀ text m, decode bytes = Some text → loads text = Some m →
     Legacy.load_projects decode loads (Present bytes) = Return m ∧
     load_projects decode loads (Present bytes) = Return m) ∧
  Legacy.load_projects decode loads Absent = Return ∅ ∧
  load_projects decode loads Absent = Return ∅.
Proof.
  unfold Legacy.load_projects, load_projects, json_load.
  split; [|split; [|split]].
  - intros text -> ->. done.
  - intros ->. done.
  - intros text m -> ->. done.
  - done.
Qed.

End ProjectStoreFacts.

Lemma load_projects_malformed_witness :
  Legacy.load_projects Some (λ text, if decide (text = "{}") then Some ∅ else None)
    (Present "{") = Raise JSONDecodeError ∧
  load_projects Some (λ text, if decide (text = "{}") then Some ∅ else None)
    (Present "{") = Return ∅.
Proof.
  destruct (load_projects_malformed Some
              (λ text, if decide (text = "{}") then Some ∅ else None) "{")
    as [H _].
  apply (H "{"); reflexivity.
Defined.

(** ** Names of questions *)

Lemma suffixed_inj base j k : suffixed base j = suffixed base k → j = k.
Proof.
  unfold suffixed. intros H.
  apply (inj (String.app base)) in H. apply (inj (String.app "_")) in H.
  by apply (inj pretty) in H.
Qed.

Lemma string_app_length (s t : string) :
  String.length (s +:+ t) = (String.length s + String.length t)%nat.
Proof. induction s as [|c s IH]; simpl; [done|by rewrite IH]. Qed.

Lemma app_length_lt (s t : string) : t ≠ "" → s +:+ t ≠ s.
Proof.
  intros Ht H. apply (f_equal String.length) in H.
  rewrite string_app_length in H. destruct t; [done|]. simpl in H. lia.
Qed.

Lemma suffixed_ne_base base k : suffixed base k ≠ base.
Proof. apply app_length_lt. done. Qed.

(** The loop ends within its tests when the candidates still to come are
    new: [seen] are the candidates already found among the names. *)
Lemma name_loop_fresh fuel existing base cand k seen :
  NoDup seen → seen ⊆ existing → cand ∉ seen →
  (∀ j, (k ≤ j)%nat → (suffixed base j ∉ seen) ∧ (suffixed base j ≠ cand)) →
  (length existing < length seen + fuel)%nat →
  ∃ r, name_loop fuel existing base cand k = Some r ∧ r ∉ existing.
Proof.
  revert cand k seen.
  induction fuel as [|fuel IH]; intros cand k seen Hnd Hsub Hc Hnext Hlen.
  - exfalso.
    assert (length seen ≤ length existing)%nat; [|lia].
    apply submseteq_length, NoDup_submseteq; [done|]. intros x Hx. by apply Hsub.
  - simpl. case_bool_decide as Hin; [|by exists cand].
    apply (IH _ _ (cand :: seen)).
    + by constructor.
    + intros x Hx. apply elem_of_cons in Hx as [->|Hx]; [done|by apply Hsub].
    + destruct (Hnext k) as [H1 H2]; [lia|].
      intros Hx. apply elem_of_cons in Hx as [Hx|Hx]; [by apply H2|by apply H1].
    + intros j Hj. destruct (Hnext j) as [H1 H2]; [lia|]. split.
      * intros Hx. apply elem_of_cons in Hx as [Hx|Hx]; [by apply H2|by apply H1].
      * intros Hx. apply suffixed_inj in Hx. lia.
    + simpl. lia.
Qed.

Lemma auto_name_fresh f q_label :
  ∃ n, auto_name f q_label = Some n ∧ n ∉ name <$> f.
Proof.
  unfold auto_name.
  apply (name_loop_fresh _ _ _ _ _ []).
  - constructor.
  - intros x Hx. by apply elem_of_nil in Hx.
  - apply not_elem_of_nil.
  - intros j _. split; [apply not_elem_of_nil|].
    destruct (base_name q_label) as [|c b] eqn:Hb; simpl.
    + unfold suffixed. simpl. intros H. discriminate H.
    + apply suffixed_ne_base.
  - rewrite length_fmap. simpl. lia.
Qed.

(** C2, as amended. From a form whose names are pairwise distinct, the Add
    Question handler yields a form whose names are pairwise distinct when
    no variable name is entered (it derives one by suffixing) or when the
    entered name, stripped, is not a name of the form; and the handler
    always returns. *)
Theorem add_question_keeps_names_distinct (w : q_form) (p : Project) (t : Z) :
  NoDup (names p) →
  ∃ errs p',
    add_question w p t = Some (errs, p') ∧
    (Py.strip (q_name w) = "" ∨ Py.strip (q_name w) ∉ names p → NoDup (names p')).
Proof.
  intros Hnd. unfold add_question.
  destruct (negb (Py.nonempty (Py.strip (q_label w)))); [by eexists _, _|].
  destruct (Py.strip (q_name w)) as [|c n] eqn:Hn; simpl.
  - destruct (auto_name_fresh (form p) (q_label w)) as [n [-> Hfresh]]. simpl.
    eexists _, _. split; [reflexivity|]. intros _.
    unfold names. simpl. rewrite fmap_app. simpl.
    apply NoDup_app. split; [done|]. split; [|apply NoDup_singleton].
    intros x Hx Hx'. apply list_elem_of_singleton in Hx' as ->. done.
  - eexists _, _. split; [reflexivity|]. intros [?|Hfresh]; [done|].
    unfold names. simpl. rewrite fmap_app. simpl.
    apply NoDup_app. split; [done|]. split; [|apply NoDup_singleton].
    intros x Hx Hx'. apply list_elem_of_singleton in Hx' as ->. done.
Qed.

Lemma add_question_keeps_names_distinct_witness :
  ∃ p', add_question (mkQForm "Age" "integer" false "" "")
          (mkProject "proj_1" "Census" "ann" "2024"
             [mkQuestion "q_1" "age" "Age" "integer" [] false] []) 5
        = Some ([], p')
        ∧ names p' = ["age"; "age_1"] ∧ NoDup (names p').
Proof.
  destruct (add_question_keeps_names_distinct (mkQForm "Age" "integer" false "" "")
              (mkProject "proj_1" "Census" "ann" "2024"
                 [mkQuestion "q_1" "age" "Age" "integer" [] false] []) 5)
    as (errs & p' & Heq & Hnd).
  - apply NoDup_singleton.
  - vm_compute in Heq. injection Heq as <- <-.
    eexists. split; [reflexivity|]. split; [reflexivity|].
    apply Hnd. left. reflexivity.
Defined.

(** C2, as stated, fails: with one question named age in the form, the Add
    Question handler given the variable name age, and the import of a
    survey sheet with a row named age, each yield a form with two
    questions named age. *)
Lemma names_not_kept_distinct :
  NoDup (names (mkProject "proj_1" "Census" "ann" "2024"
                  [mkQuestion "q_1" "age" "Age" "integer" [] false] [])) ∧
  (∃ p', add_question (mkQForm "Age in years" "integer" false "" "age")
           (mkProject "proj_1" "Census" "ann" "2024"
              [mkQuestion "q_1" "age" "Age" "integer" [] false] []) 5
         = Some ([], p') ∧ names p' = ["age"; "age"] ∧ ¬ NoDup (names p')) ∧
  (∃ p', import_xlsform
           (Readable [("survey", mkFrame ["type"; "name"; "label"]
                                   [[CStr "integer"; CStr "age"; CStr "Age in years"]])])
           (mkProject "proj_1" "Census" "ann" "2024"
              [mkQuestion "q_1" "age" "Age" "integer" [] false] []) (λ _, 5%Z)
         = (true, [], p') ∧ names p' = ["age"; "age"] ∧ ¬ NoDup (names p')).
Proof.
  split; [apply NoDup_singleton|].
  split.
  - eexists. split; [reflexivity|]. split; [reflexivity|].
    intros H. apply NoDup_cons in H as [H _]. apply H. set_solver.
  - eexists. split; [reflexivity|]. split; [reflexivity|].
    intros H. apply NoDup_cons in H as [H _]. apply H. set_solver.
Qed.

(** ** Submitting a record *)

Lemma value_missing_iff (v : option value) :
  value_missing v = true ↔
  v = None ∨ v = Some VNone ∨ v = Some (VStr "") ∨ v = Some (VList []) ∨
  v = Some (VInt 0) ∨ ∃ x, v = Some (VFloat x) ∧ Qeq x 0.
Proof.
  destruct v as [[|s|z|x|l|d|d|d]|]; simpl.
  - naive_solver.
  - destruct s; simpl; naive_solver.
  - rewrite Z.eqb_eq. naive_solver.
  - rewrite Qeq_bool_iff. naive_solver.
  - destruct l; naive_solver.
  - naive_solver.
  - naive_solver.
  - naive_solver.
  - naive_solver.
Qed.

Lemma entry_meta_lookup (entry : gmap string value) (now : string) k v :
  entry !! k = Some v → entry_meta entry now !! k = Some (normalize v).
Proof.
  intros Hk. unfold entry_meta. apply lookup_union_Some_l.
  by rewrite lookup_fmap, Hk.
Qed.

(** Saving the projects after [p] has been put back succeeds only if
    [json.dump] can write every value of every record of [p]. *)
Lemma save_projects_Return user pid p (s : store) r k v :
  save_projects (put_project user pid p s) = Return tt →
  r ∈ data p → r !! k = Some v → serializable v = true.
Proof.
  unfold save_projects, put_project. case_bool_decide as Hall; [|done]. intros _ Hr Hk.
  unfold store in *.
  specialize (Hall user _ (lookup_insert_eq _ _ _)).
  specialize (Hall pid _ (lookup_insert_eq _ _ _)).
  unfold dumpable in Hall. rewrite forallb_forall in Hall.
  apply list_elem_of_In, Hall, bool_decide_eq_true in Hr.
  by apply (Hr k v).
Qed.

Lemma submit_handler_appends (entry : gmap string value) (user pid : string)
    (p : Project) (s : store) (now : string) :
  offenders (form p) entry = [] →
  submit_handler entry user pid p s now
  = ([], set_data p (data p ++ [entry_meta entry now]),
     put_project user pid (set_data p (data p ++ [entry_meta entry now])) s,
     match save_projects
             (put_project user pid (set_data p (data p ++ [entry_meta entry now])) s)
     with
     | Raise e => Some e
     | Return _ => None
     end).
Proof.
  intros Hnil. unfold submit_handler, submit_record, missing.
  fold (offenders (form p) entry). by rewrite Hnil.
Qed.




(** The value of a date question is a [datetime.date], which is neither a
    [datetime] nor a [Timestamp]: the test of line 511 passes it by, the
    record that is appended holds it as it is, and [save_projects] raises
    [TypeError], since [json.dump] cannot write a date. *)
Theorem submit_date_raises (entry : gmap string value) (user pid : string)
    (p : Project) (s : store) (now k text : string) :
  offenders (form p) entry = [] →
  entry !! k = Some (VDate text) →
  ∃ record,
    submit_handler entry user pid p s now
    = ([], set_data p (data p ++ [record]),
       put_project user pid (set_data p (data p ++ [record])) s, Some TypeError) ∧
    record !! k = Some (VDate text).
Proof.
  intros Hnil Hk. exists (entry_meta entry now).
  pose proof (entry_meta_lookup entry now k _ Hk) as Hl. simpl in Hl.
  split; [|exact Hl].
  rewrite (submit_handler_appends _ _ _ _ _ _ Hnil). do 2 f_equal.
  destruct (save_projects
              (put_project user pid (set_data p (data p ++ [entry_meta entry now])) s))
    as [[]|e] eqn:Hs.
  - exfalso.
    assert (Hser : serializable (VDate text) = true); [|done].
    apply (save_projects_Return _ _ _ _ (entry_meta entry now) k _ Hs); [|done].
    simpl. apply elem_of_app. right. left.
  - unfold save_projects in Hs. case_bool_decide; [done|]. by injection Hs as <-.
Qed.

Lemma submit_date_raises_witness :
  ∃ record,
    (submit_handler {[ "born" := VDate "2001-02-03" ]} "ann" "proj_1"
       (mkProject "proj_1" "Census" "ann" "2024"
          [mkQuestion "q_1" "born" "Born" "date" [] true] [])
       ∅ "2024-05-01T10:00:00")
    = ([], mkProject "proj_1" "Census" "ann" "2024"
             [mkQuestion "q_1" "born" "Born" "date" [] true] [record],
       put_project "ann" "proj_1"
         (mkProject "proj_1" "Census" "ann" "2024"
            [mkQuestion "q_1" "born" "Born" "date" [] true] [record]) ∅,
       Some TypeError)
    ∧ record !! "born" = Some (VDate "2001-02-03").
Proof.
  apply (submit_date_raises {[ "born" := VDate "2001-02-03" ]} "ann" "proj_1"
           (mkProject "proj_1" "Census" "ann" "2024"
              [mkQuestion "q_1" "born" "Born" "date" [] true] [])
           ∅ "2024-05-01T10:00:00" "born" "2001-02-03").
  - vm_compute. reflexivity.
  - vm_compute. reflexivity.
Defined.

(** ** Export, then import *)

Section RoundTrip.

Variable reinterpret : list string → string → cell.

Lemma sheet_survey p :
  sheet (read_back reinterpret (export_xlsform_to_bytes p)) "survey"
  = Some (read_frame reinterpret (DataFrame survey_columns (survey_data (form p)))).
Proof. reflexivity. Qed.

Lemma sheet_choices p :
  sheet (read_back reinterpret (export_xlsform_to_bytes p)) "choices"
  = exported_choices reinterpret (form p).
Proof.
  unfold export_xlsform_to_bytes, read_back, exported_choices. simpl.
  by destruct (choices_data (form p)).
Qed.

Lemma list_choices_exported f n :
  list_choices (exported_choices reinterpret f) n
  = rows_choices reinterpret (choices_data f) (choices_data f) n.
Proof.
  unfold exported_choices. destruct (choices_data f) as [|r cd]; [done|].
  reflexivity.
Qed.

Lemma rows_choices_app ctx a b n :
  rows_choices reinterpret ctx (a ++ b) n
  = rows_choices reinterpret ctx a n ++ rows_choices reinterpret ctx b n.
Proof. unfold rows_choices. by rewrite fmap_app, filter_app, omap_app. Qed.

Lemma rows_choices_data ctx f n :
  rows_choices reinterpret ctx (choices_data f) n
  = f ≫= λ q, rows_choices reinterpret ctx (choice_records q) n.
Proof.
  induction f as [|q f IH]; [done|].
  unfold choices_data in *. rewrite !bind_cons, rows_choices_app, IH. done.
Qed.

Lemma choice_records_imap q :
  choice_records q = imap (λ i ch, [name q; "opt" +:+ pretty (S i); ch]) (choices q).
Proof. unfold choice_records. by destruct (choices q). Qed.

(** The rows of a list with a plain name and plain choices give the
    choices back to that list, and nothing to another list, whatever the
    option names are read as. *)
Lemma rows_choices_imap ctx (nm n : string) (h : nat → string) (chs : list string) :
  plain nm = true → forallb plain chs = true →
  rows_choices reinterpret ctx (imap (λ i ch, [nm; h i; ch]) chs) n
  = if bool_decide (nm = n) then chs else [].
Proof.
  intros Hnm. revert h. induction chs as [|ch chs IH]; intros h Hne.
  - by destruct (bool_decide (nm = n)).
  - simpl in Hne. apply andb_true_iff in Hne as [Hch Hne].
    rewrite imap_cons.
    change (ch :: chs) with ([ch] ++ chs).
    change ([nm; h 0%nat; ch] :: imap ((λ i ch0, [nm; h i; ch0]) ∘ S) chs)
      with ([[nm; h 0%nat; ch]] ++ imap (λ i ch0, [nm; (h ∘ S) i; ch0]) chs).
    rewrite rows_choices_app, (IH (h ∘ S) Hne).
    unfold rows_choices, read_row. simpl.
    rewrite (read_cell_plain _ _ nm Hnm), (read_cell_plain _ _ ch Hch).
    rewrite filter_cons, filter_nil.
    unfold item. simpl.
    case_bool_decide as Hn; case_decide as Hd; try done.
Qed.

Lemma rows_choices_records ctx q n :
  plain (name q) = true → forallb plain (choices q) = true →
  rows_choices reinterpret ctx (choice_records q) n
  = if bool_decide (name q = n) then choices q else [].
Proof.
  intros Hn H. rewrite choice_records_imap.
  by apply (rows_choices_imap ctx (name q) n (λ i, "opt" +:+ pretty (S i))).
Qed.

Lemma valid_question_facts q :
  valid_question q = true →
  plain (name q) = true ∧ plain (label q) = true ∧ plain (qtype_str q) = true ∧
  qtype q ∈ supported_types ∧
  (is_select (qtype q) = false → choices q = []) ∧
  forallb plain (choices q) = true.
Proof.
  unfold valid_question. rewrite !andb_true_iff, bool_decide_eq_true.
  intros [[[[[Hn Hl] Hs] Ht] Hc] Hf]. repeat split; try done.
  intros Hsel. rewrite Hsel in Hc. apply eqb_prop in Hc.
  apply bool_decide_eq_false in Hc.
  destruct (choices q); [done|]. exfalso. by apply Hc.
Qed.

Lemma select_names_cons q f :
  select_names (q :: f)
  = if is_select (qtype q) then name q :: select_names f else select_names f.
Proof.
  unfold select_names. rewrite filter_cons.
  destruct (is_select (qtype q)); by case_decide.
Qed.

(** No select question of the form is named [n]: the exported choices
    sheet has no row for the list [n]. *)
Lemma rows_choices_absent ctx f n :
  forallb valid_question f = true → n ∉ select_names f →
  (f ≫= λ q, rows_choices reinterpret ctx (choice_records q) n) = [].
Proof.
  induction f as [|q f IH]; [done|]. intros Hv Hn. simpl in Hv.
  apply andb_true_iff in Hv as [Hq Hv].
  destruct (valid_question_facts q Hq) as (Hnm & _ & _ & _ & Hc & Hne).
  rewrite select_names_cons in Hn.
  rewrite bind_cons, rows_choices_records by done.
  destruct (is_select (qtype q)) eqn:Hs.
  - apply not_elem_of_cons in Hn as [Hn1 Hn2].
    rewrite bool_decide_eq_false_2 by done. simpl.
    by apply IH.
  - rewrite (Hc eq_refl). rewrite (IH Hv Hn).
    by destruct (bool_decide (name q = n)).
Qed.

(** A select question of a valid form reads its own choices back. *)
Lemma rows_choices_own ctx f q :
  forallb valid_question f = true → NoDup (select_names f) →
  q ∈ f → is_select (qtype q) = true →
  (f ≫= λ q', rows_choices reinterpret ctx (choice_records q') (name q)) = choices q.
Proof.
  induction f as [|q' f IH]; intros Hv Hnd Hin Hs; [by apply elem_of_nil in Hin|].
  simpl in Hv. apply andb_true_iff in Hv as [Hq Hv].
  destruct (valid_question_facts q' Hq) as (Hnm & _ & _ & _ & Hc & Hne).
  rewrite select_names_cons in Hnd.
  rewrite bind_cons, rows_choices_records by done.
  apply elem_of_cons in Hin as [<-|Hin].
  - rewrite Hs in Hnd. apply NoDup_cons in Hnd as [Hfresh _].
    rewrite bool_decide_eq_true_2 by done.
    rewrite (rows_choices_absent ctx f (name q) Hv Hfresh). by rewrite app_nil_r.
  - destruct (is_select (qtype q')) eqn:Hs'.
    + apply NoDup_cons in Hnd as [Hfresh Hnd].
      rewrite bool_decide_eq_false_2; [by apply IH|].
      intros Heq. apply Hfresh. rewrite Heq. unfold select_names.
      apply list_elem_of_fmap. exists q. split; [done|].
      by apply list_elem_of_filter.
    + rewrite (Hc eq_refl). rewrite (IH Hv Hnd Hin Hs).
      by destruct (bool_decide (name q' = name q)).
Qed.

Lemma valid_form_facts f :
  valid_form f = true → forallb valid_question f = true ∧ NoDup (select_names f).
Proof.
  unfold valid_form. rewrite andb_true_iff, bool_decide_eq_true. done.
Qed.

(** the cells of a written survey row, once its texts are read *)
Lemma read_row_survey ctx q :
  plain (qtype_str q) = true → plain (name q) = true → plain (label q) = true →
  read_row reinterpret ctx (survey_record q)
  = [CStr (qtype_str q); CStr (name q); CStr (label q);
     if required q then CStr "yes" else NaN].
Proof.
  intros Ht Hn Hl. unfold read_row, survey_record. simpl.
  rewrite (read_cell_plain _ _ _ Ht), (read_cell_plain _ _ _ Hn),
    (read_cell_plain _ _ _ Hl).
  destruct (required q); [by rewrite read_cell_yes|done].
Qed.

(** The survey row of a question of a valid form, read back, is imported
    as that question with a new id, when the choices sheet gives every
    list the choices that the written rows give it. *)
Lemma import_row_written ctx cctx f q t choices_df :
  (∀ n, list_choices choices_df n = rows_choices reinterpret cctx (choices_data f) n) →
  valid_form f = true → q ∈ f →
  import_row survey_columns choices_df (read_row reinterpret ctx (survey_record q)) t
  = Some (mkQuestion (new_id "q" t) (name q) (label q) (qtype q) (choices q) (required q)).
Proof.
  intros Hdf Hv Hin. apply valid_form_facts in Hv as [Hv Hnd].
  assert (Hq : valid_question q = true).
  { rewrite forallb_forall in Hv. apply Hv. by apply list_elem_of_In. }
  destruct (valid_question_facts q Hq) as (Hnm & Hlb & Hts & Hty & Hc & Hne).
  pose proof (rows_choices_own cctx f q Hv Hnd Hin) as Hown.
  rewrite <- rows_choices_data, <- Hdf in Hown.
  rewrite (read_row_survey ctx q Hts Hnm Hlb).
  destruct q as [i n l ty chs rq]. simpl in *.
  unfold import_row, qtype_str, item. simpl.
  clear Hts. unfold supported_types in Hty.
  rewrite !elem_of_cons, elem_of_nil in Hty.
  destruct Hty as [->|[->|[->|[->|[->|[->|[->|[]]]]]]]];
    simpl; unfold required_cell, item; simpl;
    try (rewrite (Hc eq_refl); destruct rq; reflexivity).
  - change ("" +:+ n) with n. rewrite (Hown eq_refl). destruct rq; reflexivity.
  - change ("" +:+ n) with n. rewrite (Hown eq_refl). destruct rq; reflexivity.
Qed.

Lemma import_rows_cons cols choices_df clock i row rs :
  import_rows cols choices_df clock i (row :: rs)
  = match import_row cols choices_df row (clock i) with
    | Some q => q :: import_rows cols choices_df clock (S i) rs
    | None => import_rows cols choices_df clock (S i) rs
    end.
Proof. reflexivity. Qed.

Lemma import_rows_written ctx cctx f f' clock i choices_df :
  (∀ n, list_choices choices_df n = rows_choices reinterpret cctx (choices_data f) n) →
  valid_form f = true → (∀ q, q ∈ f' → q ∈ f) →
  content <$> import_rows survey_columns choices_df clock i
                (read_row reinterpret ctx <$> survey_data f')
  = content <$> f'.
Proof.
  intros Hdf Hv. revert i. induction f' as [|q f' IH]; intros i Hsub; [done|].
  unfold survey_data. rewrite !fmap_cons, import_rows_cons.
  rewrite (import_row_written ctx cctx f q (clock i) _ Hdf Hv) by (apply Hsub; left).
  rewrite !fmap_cons. f_equal.
  apply IH. intros q' Hq'. apply Hsub. by right.
Qed.

(** [import_xlsform] on the exported workbook of a form that is not
    empty: the survey sheet has its columns, so the loop runs. *)
Lemma reimport_unfold p p0 clock :
  form p ≠ [] →
  reimport reinterpret p p0 clock
  = (true, [],
     set_form p0 (form p0 ++
       import_rows survey_columns (exported_choices reinterpret (form p)) clock 0
         (read_row reinterpret (survey_data (form p)) <$> survey_data (form p)))).
Proof.
  intros Hne. unfold reimport, import_xlsform.
  rewrite sheet_survey, sheet_choices.
  destruct (form p) as [|q f] eqn:Hf; [done|]. reflexivity.
Qed.

Lemma reimport_empty p p0 clock :
  form p = [] →
  reimport reinterpret p p0 clock
  = (false, ["XLSForm must contain 'type' column in survey sheet"], p0).
Proof.
  intros Hnil. unfold reimport, import_xlsform.
  rewrite sheet_survey, Hnil. reflexivity.
Qed.

(** C1, as amended. For a form in which every question has a name, a
    label and a written type cell that are plain, a supported type,
    choices exactly when its type is a select type and only plain
    choices, and in which no two select questions share a name, exporting
    it and importing the workbook into a project with an empty form
    yields a form with as many questions, each with the name, label,
    type, required flag and choices, in order, of the original. *)
Theorem export_import_roundtrip (p p0 : Project) (clock : nat → Z) :
  valid_form (form p) = true → form p0 = [] →
  content <$> form (reimport reinterpret p p0 clock).2 = content <$> form p ∧
  length (form (reimport reinterpret p p0 clock).2) = length (form p) ∧
  (form p ≠ [] → (reimport reinterpret p p0 clock).1 = (true, [])).
Proof.
  intros Hv H0.
  assert (Hc : content <$> form (reimport reinterpret p p0 clock).2
               = content <$> form p).
  { destruct (decide (form p = [])) as [Hf|Hf].
    - rewrite reimport_empty by done. simpl. by rewrite H0, Hf.
    - rewrite reimport_unfold by done. simpl. rewrite H0. simpl.
      apply (import_rows_written _ (choices_data (form p)) (form p) (form p));
        [|done|done].
      intros n. apply list_choices_exported. }
  split; [exact Hc|]. split.
  - apply (f_equal length) in Hc. by rewrite !length_fmap in Hc.
  - intros Hne. by rewrite reimport_unfold.
Qed.

(** ** Choices of questions that are not select questions *)


Lemma import_rows_elem cols choices_df clock i rs q :
  q ∈ import_rows cols choices_df clock i rs ↔
  ∃ j row, rs !! j = Some row ∧ import_row cols choices_df row (clock (i + j)%nat) = Some q.
Proof.
  revert i. induction rs as [|row rs IH]; intros i.
  - simpl. split; [by intros ?%elem_of_nil|]. by intros (j & r & ? & _).
  - rewrite import_rows_cons. split.
    + intros Hin.
      assert (Hcase : import_row cols choices_df row (clock i) = Some q
                      ∨ q ∈ import_rows cols choices_df clock (S i) rs).
      { destruct (import_row cols choices_df row (clock i)) as [q0|]; [|by right].
        apply elem_of_cons in Hin as [->|Hin]; [by left|by right]. }
      destruct Hcase as [Hq|Hq].
      * exists 0%nat, row. by rewrite Nat.add_0_r.
      * apply IH in Hq as (j & r & Hj & Hr). exists (S j), r.
        split; [done|]. by rewrite Nat.add_succ_r.
    + intros (j & r & Hj & Hr). destruct j as [|j].
      * simpl in Hj. injection Hj as ->. rewrite Nat.add_0_r in Hr. rewrite Hr. by left.
      * simpl in Hj. rewrite Nat.add_succ_r in Hr.
        assert (Hq : q ∈ import_rows cols choices_df clock (S i) rs)
          by (apply IH; by exists j, r).
        destruct (import_row cols choices_df row (clock i)); [by right|done].
Qed.




End RoundTrip.

Lemma export_import_roundtrip_witness :
  content <$> form (reimport as_written
    (mkProject "proj_1" "Census" "ann" "2024"
       [mkQuestion "q_1" "name" "Name" "text" [] true;
        mkQuestion "q_2" "gender" "Gender" "select_one" ["M"; "F"] false] [])
    (mkProject "proj_2" "Copy" "ann" "2025" [] []) (λ i, Z.of_nat i)).2
  = [("name", "Name", "text", true, []);
     ("gender", "Gender", "select_one", false, ["M"; "F"])].
Proof.
  apply (export_import_roundtrip as_written
           (mkProject "proj_1" "Census" "ann" "2024"
              [mkQuestion "q_1" "name" "Name" "text" [] true;
               mkQuestion "q_2" "gender" "Gender" "select_one" ["M"; "F"] false] [])
           (mkProject "proj_2" "Copy" "ann" "2025" [] []) (λ i, Z.of_nat i)).
  - vm_compute. reflexivity.
  - reflexivity.
Defined.

(** C1, as stated, fails.  Two select questions with the same name are
    exported under one list name, and each gets the choices of both back;
    a choice that is a marker of a missing value, such as N/A, is read as
    missing and comes back as its option name; and choices that are all
    numerals are read as numbers and come back as the texts of the
    numbers.  None of the three forms has a text that reaches the
    parameter of the reader, which is taken here as [as_written]. *)
Lemma roundtrip_changes_choices :
  (forallb well_formed
     [mkQuestion "q_1" "gender" "Gender" "select_one" ["M"; "F"] false;
      mkQuestion "q_2" "gender" "Sex" "select_multiple" ["X"; "Y"] false] = true ∧
   choices <$> form (reimport as_written
     (mkProject "proj_1" "Census" "ann" "2024"
        [mkQuestion "q_1" "gender" "Gender" "select_one" ["M"; "F"] false;
         mkQuestion "q_2" "gender" "Sex" "select_multiple" ["X"; "Y"] false] [])
     (mkProject "proj_2" "Copy" "ann" "2025" [] []) (λ i, Z.of_nat i)).2
   = [["M"; "F"; "X"; "Y"]; ["M"; "F"; "X"; "Y"]]) ∧
  (forallb well_formed
     [mkQuestion "q_1" "blood" "Blood group" "select_one" ["A"; "B"; "N/A"] false] = true ∧
   choices <$> form (reimport as_written
     (mkProject "proj_1" "Census" "ann" "2024"
        [mkQuestion "q_1" "blood" "Blood group" "select_one" ["A"; "B"; "N/A"] false] [])
     (mkProject "proj_2" "Copy" "ann" "2025" [] []) (λ i, Z.of_nat i)).2
   = [["A"; "B"; "opt3"]]) ∧
  (forallb well_formed
     [mkQuestion "q_1" "ward" "Ward" "select_one" ["01"; "02"; "10"] false] = true ∧
   choices <$> form (reimport as_written
     (mkProject "proj_1" "Census" "ann" "2024"
        [mkQuestion "q_1" "ward" "Ward" "select_one" ["01"; "02"; "10"] false] [])
     (mkProject "proj_2" "Copy" "ann" "2025" [] []) (λ i, Z.of_nat i)).2
   = [["1"; "2"; "10"]]).
Proof. repeat split; vm_compute; reflexivity. Qed.

(** The same for every value of the parameter of the reader. *)
Example roundtrip_changes_any_reader (reinterpret : list string → string → cell) :
  (forallb well_formed
     [mkQuestion "q_1" "gender" "Gender" "select_one" ["M"; "F"] false;
      mkQuestion "q_2" "gender" "Sex" "select_multiple" ["X"; "Y"] false] = true ∧
   choices <$> form (reimport reinterpret
     (mkProject "proj_1" "Census" "ann" "2024"
        [mkQuestion "q_1" "gender" "Gender" "select_one" ["M"; "F"] false;
         mkQuestion "q_2" "gender" "Sex" "select_multiple" ["X"; "Y"] false] [])
     (mkProject "proj_2" "Copy" "ann" "2025" [] []) (λ i, Z.of_nat i)).2
   = [["M"; "F"; "X"; "Y"]; ["M"; "F"; "X"; "Y"]]) ∧
  (forallb well_formed
     [mkQuestion "q_1" "blood" "Blood group" "select_one" ["A"; "B"; "N/A"] false] = true ∧
   choices <$> form (reimport reinterpret
     (mkProject "proj_1" "Census" "ann" "2024"
        [mkQuestion "q_1" "blood" "Blood group" "select_one" ["A"; "B"; "N/A"] false] [])
     (mkProject "proj_2" "Copy" "ann" "2025" [] []) (λ i, Z.of_nat i)).2
   = [["A"; "B"; "opt3"]]) ∧
  (forallb well_formed
     [mkQuestion "q_1" "ward" "Ward" "select_one" ["01"; "02"; "10"] false] = true ∧
   choices <$> form (reimport reinterpret
     (mkProject "proj_1" "Census" "ann" "2024"
        [mkQuestion "q_1" "ward" "Ward" "select_one" ["01"; "02"; "10"] false] [])
     (mkProject "proj_2" "Copy" "ann" "2025" [] []) (λ i, Z.of_nat i)).2
   = [["1"; "2"; "10"]]).
Proof. repeat split; vm_compute; reflexivity. Qed.


(** ** Logging in *)

Section AuthenticationFacts.

Variable hash_password : string → string.
Variable reinterpret : list string → string → cell.

Lemma filter_user_absent (username : string) (df : list (string * string)) :
  username ∉ df.*1 → filter (λ r : string * string, r.1 = username) df = [].
Proof.
  induction df as [|r df IH]; [done|]. rewrite fmap_cons, not_elem_of_cons.
  intros [Hne Hin]. rewrite filter_cons. case_decide; [congruence|by apply IH].
Qed.

Lemma filter_user_present (username : string) (df : list (string * string)) h :
  NoDup df.*1 → (username, h) ∈ df →
  filter (λ r : string * string, r.1 = username) df = [(username, h)].
Proof.
  induction df as [|r df IH]; intros Hnd Hin; [by apply elem_of_nil in Hin|].
  rewrite fmap_cons in Hnd. apply NoDup_cons in Hnd as [Hfresh Hnd].
  rewrite filter_cons. apply elem_of_cons in Hin as [<-|Hin]; simpl.
  - case_decide; [|done]. simpl in Hfresh. by rewrite filter_user_absent.
  - case_decide as Hr; [|by apply IH].
    exfalso. apply Hfresh. rewrite Hr. apply list_elem_of_fmap.
    by exists (username, h).
Qed.

Lemma read_columns_plain (c1 c2 : list string) (df : list (string * string)) :
  plain_table df = true →
  (λ r : string * string,
     (read_cell reinterpret c1 r.1, read_cell reinterpret c2 r.2)) <$> df
  = text_cells df.
Proof.
  induction df as [|[u h] df IH]; [done|]. intros Hp. simpl in Hp.
  rewrite !andb_true_iff in Hp. destruct Hp as [[Hu Hh] Hdf].
  unfold text_cells in *. rewrite !fmap_cons. simpl.
  by rewrite (read_cell_plain _ _ _ Hu), (read_cell_plain _ _ _ Hh), IH.
Qed.

(** A table of plain fields is read as it was written. *)
Lemma read_csv_plain (df : list (string * string)) :
  plain_table df = true → read_csv reinterpret df = text_cells df.
Proof. apply read_columns_plain. Qed.

Lemma to_csv_text_cells (df : list (string * string)) : to_csv (text_cells df) = df.
Proof.
  induction df as [|[u h] df IH]; [done|].
  unfold to_csv, text_cells in *. rewrite !fmap_cons, IH. done.
Qed.

Lemma text_cells_names (df : list (string * string)) (username : string) :
  CStr username ∈ (text_cells df).*1 ↔ username ∈ df.*1.
Proof.
  induction df as [|[u h] df IH]; [by rewrite !elem_of_nil|].
  unfold text_cells in *. rewrite !fmap_cons, !elem_of_cons, IH. simpl.
  naive_solver.
Qed.

Lemma filter_text_cells (df : list (string * string)) (username : string) :
  filter (λ r : cell * cell, cell_eq_str r.1 username = true) (text_cells df)
  = text_cells (filter (λ r : string * string, r.1 = username) df).
Proof.
  induction df as [|[u h] df IH]; [done|].
  unfold text_cells in *. rewrite fmap_cons, !filter_cons, IH. simpl.
  case_decide as H1; case_decide as H2; try done;
    exfalso; rewrite bool_decide_eq_true in H1; done.
Qed.

(** On a table of plain fields [add_user] looks the name up among the
    names of the table and, if it is new, adds a row to the table. *)
Lemma add_user_plain (username password : string) (fs : user_file) :
  plain_table (ensure_user_file fs) = true →
  add_user hash_password reinterpret username password fs
  = if bool_decide (username ∈ (ensure_user_file fs).*1)
    then (false, Some (ensure_user_file fs))
    else (true, Some (ensure_user_file fs ++ [(username, hash_password password)])).
Proof.
  intros Hp. unfold add_user. rewrite (read_csv_plain _ Hp).
  destruct (existsb (λ c, cell_eq_str c username) (text_cells (ensure_user_file fs)).*1)
    eqn:He.
  - apply existsb_cell_eq_str, text_cells_names in He.
    by rewrite bool_decide_eq_true_2.
  - rewrite bool_decide_eq_false_2.
    + unfold to_csv. rewrite fmap_app. fold (to_csv (text_cells (ensure_user_file fs))).
      by rewrite to_csv_text_cells.
    + intros Hin. apply text_cells_names, existsb_cell_eq_str in Hin. congruence.
Qed.

Lemma authenticate_plain (username password : string) (fs : user_file) :
  plain_table (ensure_user_file fs) = true →
  (authenticate hash_password reinterpret username password fs).1
  = match filter (λ r : string * string, r.1 = username) (ensure_user_file fs) with
    | [] => false
    | r :: _ => bool_decide (r.2 = hash_password password)
    end.
Proof.
  intros Hp. unfold authenticate. rewrite (read_csv_plain _ Hp), filter_text_cells.
  by destruct (filter (λ r : string * string, r.1 = username) (ensure_user_file fs))
    as [|[u h] rest].
Qed.

Lemma plain_table_snoc (df : list (string * string)) u h :
  plain_table df = true → plain u = true → plain h = true →
  plain_table (df ++ [(u, h)]) = true.
Proof.
  intros Hp Hu Hh. unfold plain_table in *. rewrite forallb_app, Hp. simpl.
  by rewrite Hu, Hh.
Qed.

(** In a table of users whose fields are all plain texts, after
    [add_user] has registered a new user name that is plain with a
    password whose hash is plain, [authenticate] accepts for that name
    exactly the passwords with the same hash, so it accepts the password
    itself. *)
Theorem register_then_authenticate (username password : string) (fs : user_file) :
  plain_table (ensure_user_file fs) = true →
  plain username = true → plain (hash_password password) = true →
  username ∉ (ensure_user_file fs).*1 →
  (add_user hash_password reinterpret username password fs).1 = true ∧
  (authenticate hash_password reinterpret username password
     (add_user hash_password reinterpret username password fs).2).1 = true ∧
  ∀ attempt,
    (authenticate hash_password reinterpret username attempt
       (add_user hash_password reinterpret username password fs).2).1 = true
    ↔ hash_password attempt = hash_password password.
Proof.
  intros Hp Hu Hh Hnew. rewrite (add_user_plain _ _ _ Hp).
  rewrite bool_decide_eq_false_2 by done. simpl.
  assert (Hf : ∀ attempt,
    (authenticate hash_password reinterpret username attempt
       (Some (ensure_user_file fs ++ [(username, hash_password password)]))).1
    = bool_decide (hash_password password = hash_password attempt)).
  { intros attempt. rewrite authenticate_plain by (by apply plain_table_snoc).
    simpl. rewrite filter_app, filter_user_absent by done. simpl.
    rewrite filter_cons, filter_nil. simpl. by case_decide. }
  split; [done|]. split.
  - rewrite Hf. by apply bool_decide_eq_true.
  - intros attempt. rewrite Hf, bool_decide_eq_true. naive_solver.
Qed.

(** In a table of users whose fields are all plain texts, [authenticate]
    returns [True] only for a user name and a password whose hash are a
    row of the table; and when no two rows have the same user name, it
    returns [True] for every such pair. *)
Theorem authenticate_iff_row (username password : string) (fs : user_file) :
  plain_table (ensure_user_file fs) = true →
  ((authenticate hash_password reinterpret username password fs).1 = true →
     (username, hash_password password) ∈ ensure_user_file fs) ∧
  (NoDup (ensure_user_file fs).*1 →
     (username, hash_password password) ∈ ensure_user_file fs →
     (authenticate hash_password reinterpret username password fs).1 = true).
Proof.
  intros Hp. rewrite (authenticate_plain _ _ _ Hp). split.
  - destruct (filter (λ r : string * string, r.1 = username) (ensure_user_file fs))
      as [|[u h] rest] eqn:Hf; simpl; [done|].
    rewrite bool_decide_eq_true. intros <-.
    assert (Hin : (u, h) ∈ filter (λ r : string * string, r.1 = username)
                             (ensure_user_file fs)) by (rewrite Hf; left).
    apply list_elem_of_filter in Hin as [Hu Hin]. simpl in Hu. by subst u.
  - intros Hnd Hin. rewrite (filter_user_present _ _ _ Hnd Hin). simpl.
    by apply bool_decide_eq_true.
Qed.

(** In a table of users whose fields are all plain texts, [add_user] for
    a plain user name and a password whose hash is plain keeps the user
    names of the table pairwise distinct, and it does not change what
    [authenticate] answers for any other user name. *)
Theorem add_user_keeps_table (username password : string) (fs : user_file) :
  plain_table (ensure_user_file fs) = true →
  plain username = true → plain (hash_password password) = true →
  (NoDup (ensure_user_file fs).*1 →
     NoDup (ensure_user_file
              (add_user hash_password reinterpret username password fs).2).*1) ∧
  (∀ other attempt, other ≠ username →
     (authenticate hash_password reinterpret other attempt
        (add_user hash_password reinterpret username password fs).2).1
     = (authenticate hash_password reinterpret other attempt fs).1).
Proof.
  intros Hp Hu Hh. rewrite (add_user_plain _ _ _ Hp).
  case_bool_decide as Hin; simpl.
  - split; [done|]. intros other attempt _.
    by rewrite !authenticate_plain.
  - split.
    + intros Hnd. rewrite fmap_app. apply NoDup_app. split; [done|].
      split; [|apply NoDup_singleton].
      intros x Hx Hx'. simpl in Hx'. apply list_elem_of_singleton in Hx' as ->. done.
    + intros other attempt Hne.
      rewrite authenticate_plain by (by apply plain_table_snoc).
      rewrite authenticate_plain by done. simpl.
      rewrite filter_app. rewrite (filter_cons _ (username, _)), filter_nil. simpl.
      case_decide; [congruence|]. by rewrite app_nil_r.
Qed.

End AuthenticationFacts.

Lemma register_then_authenticate_witness :
  (authenticate (λ pw, "h(" +:+ pw +:+ ")") as_written "cy" "pw3"
     (add_user (λ pw, "h(" +:+ pw +:+ ")") as_written "cy" "pw3"
        (Some [("ann", "h(pw1)"); ("bob", "h(x)")])).2).1 = true.
Proof.
  destruct (register_then_authenticate (λ pw, "h(" +:+ pw +:+ ")") as_written
              "cy" "pw3" (Some [("ann", "h(pw1)"); ("bob", "h(x)")]))
    as (_ & H & _).
  - vm_compute. reflexivity.
  - vm_compute. reflexivity.
  - vm_compute. reflexivity.
  - simpl. set_solver.
  - exact H.
Defined.

Lemma authenticate_iff_row_witness :
  (authenticate (λ pw, "h(" +:+ pw +:+ ")") as_written "bob" "x"
     (Some [("ann", "h(pw1)"); ("bob", "h(x)")])).1 = true.
Proof.
  destruct (authenticate_iff_row (λ pw, "h(" +:+ pw +:+ ")") as_written "bob" "x"
              (Some [("ann", "h(pw1)"); ("bob", "h(x)")])) as [_ H].
  - vm_compute. reflexivity.
  - apply H.
    + simpl. apply (bool_decide_unpack _). vm_compute. exact I.
    + simpl. set_solver.
Defined.

Lemma add_user_keeps_table_witness :
  NoDup (ensure_user_file
           (add_user (λ pw, "h(" +:+ pw +:+ ")") as_written "cy" "pw3"
              (Some [("ann", "h(pw1)"); ("bob", "h(x)")])).2).*1.
Proof.
  destruct (add_user_keeps_table (λ pw, "h(" +:+ pw +:+ ")") as_written "cy" "pw3"
              (Some [("ann", "h(pw1)"); ("bob", "h(x)")])) as [H _].
  - vm_compute. reflexivity.
  - vm_compute. reflexivity.
  - vm_compute. reflexivity.
  - apply H. simpl. apply (bool_decide_unpack _). vm_compute. exact I.
Defined.

(** ** Reordering the form *)

Lemma py_index_in_range {A : Type} (l : list A) (i : nat) :
  (i < length l)%nat → py_index l (Z.of_nat i) = Some i.
Proof.
  intros Hlt. unfold py_index.
  destruct (Z.ltb_spec (Z.of_nat i) 0); [lia|].
  destruct (Z.leb_spec 0 (Z.of_nat i)); [|lia].
  destruct (Z.ltb_spec (Z.of_nat i) (Z.of_nat (length l))); [|lia].
  simpl. by rewrite Nat2Z.id.
Qed.

(** Exchanging two neighbours, in either order of the two assignments. *)
Lemma py_swap_neighbours {A : Type} (l1 l2 : list A) (x y : A) :
  py_swap (l1 ++ x :: y :: l2) (Z.of_nat (length l1)) (Z.of_nat (length l1) + 1)
  = Some (l1 ++ y :: x :: l2) ∧
  py_swap (l1 ++ x :: y :: l2) (Z.of_nat (length l1) + 1) (Z.of_nat (length l1))
  = Some (l1 ++ y :: x :: l2).
Proof.
  set (l := l1 ++ x :: y :: l2). set (a := length l1).
  assert (Hlen : length l = S (S (a + length l2))).
  { unfold l, a. rewrite length_app. simpl. lia. }
  assert (Hx : l !! a = Some x) by (unfold l, a; by rewrite list_lookup_middle).
  assert (Hy : l !! S a = Some y).
  { unfold l, a. rewrite lookup_app_r by lia.
    by replace (S (length l1) - length l1)%nat with 1%nat by lia. }
  assert (Ha : ∀ k : list A, length k = length l → py_index k (Z.of_nat a) = Some a).
  { intros k Hk. apply py_index_in_range. lia. }
  assert (Hb : ∀ k : list A, length k = length l →
                 py_index k (Z.of_nat a + 1) = Some (S a)).
  { intros k Hk. replace (Z.of_nat a + 1)%Z with (Z.of_nat (S a)) by lia.
    apply py_index_in_range. lia. }
  assert (Hres1 : <[S a := x]> (<[a := y]> l) = l1 ++ y :: x :: l2).
  { unfold l, a. rewrite insert_app_r_alt by lia.
    replace (length l1 - length l1)%nat with 0%nat by lia. simpl.
    rewrite insert_app_r_alt by lia.
    by replace (S (length l1) - length l1)%nat with 1%nat by lia. }
  assert (Hres2 : <[a := y]> (<[S a := x]> l) = l1 ++ y :: x :: l2).
  { unfold l, a. rewrite insert_app_r_alt by lia.
    replace (S (length l1) - length l1)%nat with 1%nat by lia. simpl.
    rewrite insert_app_r_alt by lia.
    by replace (length l1 - length l1)%nat with 0%nat by lia. }
  unfold py_swap, py_getitem, py_setitem. split.
  - rewrite (Hb l), (Ha l) by done. simpl. rewrite Hy, Hx. simpl.
    rewrite (Hb (<[a:=y]> l)) by by rewrite length_insert. simpl. by rewrite Hres1.
  - rewrite (Hb l), (Ha l) by done. simpl. rewrite Hy, Hx. simpl.
    rewrite (Ha (<[S a:=x]> l)) by by rewrite length_insert. simpl. by rewrite Hres2.
Qed.

Lemma form_set_form p f : form (set_form p f) = f.
Proof. done. Qed.

(** Move Up on the number of a question that has one before it exchanges
    the two and changes nothing else of the project; Move Up on number 1
    changes nothing. *)
Theorem move_up_exchanges (p : Project) (l1 l2 : list Question) (x y : Question) :
  form p = l1 ++ x :: y :: l2 →
  move_up (Z.of_nat (length l1) + 2) p = Some (set_form p (l1 ++ y :: x :: l2)) ∧
  move_up 1 p = Some p.
Proof.
  intros Hf. split; [|done]. unfold move_up.
  destruct (Z.ltb_spec 0 (Z.of_nat (length l1) + 2 - 1)); [|lia].
  replace (Z.of_nat (length l1) + 2 - 1 - 1)%Z with (Z.of_nat (length l1)) by lia.
  replace (Z.of_nat (length l1) + 2 - 1)%Z with (Z.of_nat (length l1) + 1)%Z by lia.
  rewrite Hf. by rewrite (proj1 (py_swap_neighbours l1 l2 x y)).
Qed.

(** Move Down on the number of a question that has one after it
    exchanges the two and changes nothing else of the project; Move Down
    on the number of the last question changes nothing. *)
Theorem move_down_exchanges (p : Project) (l1 l2 : list Question) (x y : Question) :
  form p = l1 ++ x :: y :: l2 →
  move_down (Z.of_nat (length l1) + 1) p = Some (set_form p (l1 ++ y :: x :: l2)) ∧
  move_down (Z.of_nat (length (form p))) p = Some p.
Proof.
  intros Hf. split.
  - unfold move_down. rewrite Hf, length_app. simpl.
    destruct (Z.ltb_spec (Z.of_nat (length l1) + 1 - 1)
                (Z.of_nat (length l1 + S (S (length l2))) - 1)); [|lia].
    replace (Z.of_nat (length l1) + 1 - 1 + 1)%Z with (Z.of_nat (length l1) + 1)%Z by lia.
    replace (Z.of_nat (length l1) + 1 - 1)%Z with (Z.of_nat (length l1)) by lia.
    by rewrite (proj2 (py_swap_neighbours l1 l2 x y)).
  - unfold move_down.
    by destruct (Z.ltb_spec (Z.of_nat (length (form p)) - 1)
                   (Z.of_nat (length (form p)) - 1)); [lia|].
Qed.

(** Move Down on a question and then Move Up on the next number, and Move
    Up on a question and then Move Down on the number before, both give
    the project back; and both handlers keep the names of the form
    pairwise distinct. *)
Theorem move_down_then_up (p : Project) (l1 l2 : list Question) (x y : Question) :
  form p = l1 ++ x :: y :: l2 →
  (move_down (Z.of_nat (length l1) + 1) p ≫= move_up (Z.of_nat (length l1) + 2)) = Some p ∧
  (move_up (Z.of_nat (length l1) + 2) p ≫= move_down (Z.of_nat (length l1) + 1)) = Some p ∧
  (NoDup (names p) →
   ∀ p', move_up (Z.of_nat (length l1) + 2) p = Some p'
         ∨ move_down (Z.of_nat (length l1) + 1) p = Some p' →
         NoDup (names p')).
Proof.
  intros Hf.
  assert (Hup : ∀ q, form q = l1 ++ x :: y :: l2 →
            move_up (Z.of_nat (length l1) + 2) q = Some (set_form q (l1 ++ y :: x :: l2))).
  { intros q Hq. unfold move_up.
    destruct (Z.ltb_spec 0 (Z.of_nat (length l1) + 2 - 1)); [|lia].
    replace (Z.of_nat (length l1) + 2 - 1 - 1)%Z with (Z.of_nat (length l1)) by lia.
    replace (Z.of_nat (length l1) + 2 - 1)%Z with (Z.of_nat (length l1) + 1)%Z by lia.
    rewrite Hq. by rewrite (proj1 (py_swap_neighbours l1 l2 x y)). }
  assert (Hup' : ∀ q, form q = l1 ++ y :: x :: l2 →
            move_up (Z.of_nat (length l1) + 2) q = Some (set_form q (l1 ++ x :: y :: l2))).
  { intros q Hq. unfold move_up.
    destruct (Z.ltb_spec 0 (Z.of_nat (length l1) + 2 - 1)); [|lia].
    replace (Z.of_nat (length l1) + 2 - 1 - 1)%Z with (Z.of_nat (length l1)) by lia.
    replace (Z.of_nat (length l1) + 2 - 1)%Z with (Z.of_nat (length l1) + 1)%Z by lia.
    rewrite Hq. by rewrite (proj1 (py_swap_neighbours l1 l2 y x)). }
  assert (Hdown : ∀ a b q, form q = l1 ++ a :: b :: l2 →
            move_down (Z.of_nat (length l1) + 1) q = Some (set_form q (l1 ++ b :: a :: l2))).
  { intros a b q Hq. unfold move_down. rewrite Hq, length_app. simpl.
    destruct (Z.ltb_spec (Z.of_nat (length l1) + 1 - 1)
                (Z.of_nat (length l1 + S (S (length l2))) - 1)); [|lia].
    replace (Z.of_nat (length l1) + 1 - 1 + 1)%Z with (Z.of_nat (length l1) + 1)%Z by lia.
    replace (Z.of_nat (length l1) + 1 - 1)%Z with (Z.of_nat (length l1)) by lia.
    by rewrite (proj2 (py_swap_neighbours l1 l2 a b)). }
  assert (Hback : set_form (set_form p (l1 ++ y :: x :: l2)) (l1 ++ x :: y :: l2) = p).
  { rewrite <- Hf. by destruct p. }
  split; [|split].
  - rewrite (Hdown x y p Hf). simpl. rewrite Hup' by done. by rewrite Hback.
  - rewrite (Hup p Hf). simpl. rewrite (Hdown y x) by done. by rewrite Hback.
  - intros Hnd p' Hp'.
    assert (Hp : p' = set_form p (l1 ++ y :: x :: l2)).
    { destruct Hp' as [Hp'|Hp'].
      - rewrite (Hup p Hf) in Hp'. by injection Hp'.
      - rewrite (Hdown x y p Hf) in Hp'. by injection Hp'. }
    subst p'. unfold names in *. rewrite Hf in Hnd. simpl.
    assert (HP : name <$> (l1 ++ y :: x :: l2) ≡ₚ name <$> (l1 ++ x :: y :: l2)).
    { rewrite !fmap_app, !fmap_cons. apply Permutation_app_head, perm_swap. }
    by rewrite HP.
Qed.

Lemma move_up_exchanges_witness :
  move_up 3 census = Some (set_form census [q_name_ex; q_gender_ex; q_age_ex]).
Proof.
  apply (move_up_exchanges census [q_name_ex] [] q_age_ex q_gender_ex).
  reflexivity.
Defined.

Lemma move_down_exchanges_witness :
  move_down 2 census = Some (set_form census [q_name_ex; q_gender_ex; q_age_ex]).
Proof.
  apply (move_down_exchanges census [q_name_ex] [] q_age_ex q_gender_ex).
  reflexivity.
Defined.

Lemma move_down_then_up_witness :
  (move_down 2 census ≫= move_up 3) = Some census.
Proof.
  apply (move_down_then_up census [q_name_ex] [] q_age_ex q_gender_ex).
  reflexivity.
Defined.

(** ** Deleting by number *)

Lemma py_pop_middle {A : Type} (l1 l2 : list A) (x : A) :
  py_pop (l1 ++ x :: l2) (Z.of_nat (length l1)) = Some (x, l1 ++ l2).
Proof.
  rewrite (py_pop_in_range _ _ x) by by rewrite list_lookup_middle.
  do 2 f_equal. rewrite delete_middle. done.
Qed.

(** Delete Submission on the number of a record removes that record and
    nothing else: the records before and after it stay, in order, and the
    form and the other fields of the project are as they were. *)
Theorem delete_submission_frame (p : Project) (d1 d2 : list (gmap string value))
    (r : gmap string value) :
  data p = d1 ++ r :: d2 →
  delete_submission (Z.of_nat (length d1) + 1) p
  = Some ("Deleted submission #" +:+ pretty (Z.of_nat (length d1) + 1)%Z +:+ ".",
          set_data p (d1 ++ d2)).
Proof.
  intros Hd. unfold delete_submission. rewrite Hd.
  replace (Z.of_nat (length d1) + 1 - 1)%Z with (Z.of_nat (length d1)) by lia.
  by rewrite py_pop_middle.
Qed.

Lemma delete_submission_frame_witness :
  ∃ p', delete_submission 1 census = Some ("Deleted submission #1.", p')
        ∧ length (data p') = 1%nat ∧ form p' = form census.
Proof.
  eexists. split.
  - apply (delete_submission_frame census []
             [{[ "_submission_time" := VStr "2024-05-01T11:00:00"; "name" := VStr "Bob" ]}]
             {[ "_submission_time" := VStr "2024-05-01T10:00:00"; "name" := VStr "Alice" ]}).
    reflexivity.
  - split; reflexivity.
Defined.

(** ** The question that the designer adds *)

(** What the loop returns: its first candidate if that is no name of the
    form, else the suffixed base with the least suffix from [k] on that is
    no name of the form. *)
Lemma name_loop_least fuel existing base cand k r :
  name_loop fuel existing base cand k = Some r →
  (r ∉ existing) ∧
  ((r = cand) ∨
   (cand ∈ existing ∧
    ∃ k', (k ≤ k')%nat ∧ r = suffixed base k' ∧
          ∀ j, (k ≤ j < k')%nat → suffixed base j ∈ existing)).
Proof.
  revert cand k. induction fuel as [|fuel IH]; intros cand k; [done|].
  simpl. case_bool_decide as Hin.
  - intros Hr. apply IH in Hr as [Hfresh [Hr|(Hk & k' & Hle & Hr & Hall)]].
    + split; [done|]. right. split; [done|].
      exists k. split; [lia|]. split; [done|]. intros j Hj. lia.
    + split; [done|]. right. split; [done|].
      exists k'. split; [lia|]. split; [done|]. intros j Hj.
      destruct (decide (j = k)) as [->|Hne]; [done|]. apply Hall. lia.
  - intros [= <-]. split; [done|]. by left.
Qed.

Lemma map_chars_nonempty f s : Py.nonempty (map_chars f s) = Py.nonempty s.
Proof. by destruct s. Qed.

Lemma lower_nonempty s : Py.nonempty (Py.lower s) = Py.nonempty s.
Proof. by destruct s. Qed.

Lemma base_name_nonempty q_label :
  Py.nonempty (base_name q_label) = Py.nonempty (Py.strip q_label).
Proof. unfold base_name. by rewrite lower_nonempty, map_chars_nonempty. Qed.

Lemma suffixed_nonempty base k : Py.nonempty (suffixed base k) = true.
Proof. unfold suffixed. by destruct base. Qed.

(** For a label of ASCII characters that is not blank, the generated
    variable name is the sanitized label if no question has it as its
    name; else it is the sanitized label followed by _k for the least k
    from 1 on such that no question has that name. *)
Theorem auto_name_least_suffix (f : list Question) (q_label : string) :
  ascii_text q_label = true →
  Py.nonempty (Py.strip q_label) = true →
  ∃ n, auto_name f q_label = Some n ∧
       (n ∉ name <$> f) ∧
       ((n = base_name q_label) ∨
        (base_name q_label ∈ name <$> f ∧
         ∃ k, (1 ≤ k)%nat ∧ n = suffixed (base_name q_label) k ∧
              ∀ j, (1 ≤ j < k)%nat → suffixed (base_name q_label) j ∈ name <$> f)).
Proof.
  intros _ Hl. destruct (auto_name_fresh f q_label) as [n [Hn Hfresh]].
  exists n. split; [done|]. unfold auto_name in Hn.
  rewrite base_name_nonempty, Hl in Hn.
  by apply name_loop_least in Hn.
Qed.

Lemma auto_name_least_suffix_witness :
  auto_name [mkQuestion "q_1" "age" "Age" "integer" [] false;
             mkQuestion "q_2" "age_1" "Age" "integer" [] false] " Age " = Some "age_2".
Proof.
  destruct (auto_name_least_suffix
              [mkQuestion "q_1" "age" "Age" "integer" [] false;
               mkQuestion "q_2" "age_1" "Age" "integer" [] false] " Age ")
    as (n & Hn & _).
  - reflexivity.
  - reflexivity.
  - rewrite Hn. vm_compute in Hn. symmetry. exact Hn.
Defined.

Lemma parse_choices_nonempty q_choices :
  Forall (λ c, Py.nonempty c = true) (parse_choices q_choices).
Proof.
  unfold parse_choices. destruct (Py.nonempty q_choices); [|constructor].
  apply Forall_forall. intros c Hc. by apply list_elem_of_filter in Hc as [Hc _].
Qed.

(** When the Add Question handler adds a question, it appends one question
    to the form and changes nothing else of the project; the question has
    a name and a label that are not empty, the entered type and required
    flag, no empty choice, and no choice at all unless its type is a
    select type.  When it reports an error, the project is as it was. *)
Theorem add_question_well_formed (w : q_form) (p : Project) (t : Z) errs (p' : Project) :
  add_question w p t = Some (errs, p') →
  (errs ≠ [] → p' = p) ∧
  (errs = [] →
     ∃ q, p' = set_form p (form p ++ [q]) ∧
          qid q = new_id "q" t ∧
          Py.nonempty (name q) = true ∧ Py.nonempty (label q) = true ∧
          qtype q = q_type w ∧ required q = q_required w ∧
          Forall (λ c, Py.nonempty c = true) (choices q) ∧
          (is_select (q_type w) = false → choices q = [])).
Proof.
  unfold add_question.
  destruct (Py.nonempty (Py.strip (q_label w))) eqn:Hl; simpl.
  2:{ intros [= <- <-]. split; [done|]. intros ?; discriminate. }
  destruct (Py.nonempty (Py.strip (q_name w))) eqn:Hn; simpl.
  - intros [= <- <-]. split; [done|]. intros _. eexists. split; [reflexivity|].
    simpl. repeat split; try done.
    + apply parse_choices_nonempty.
    + by intros ->.
  - destruct (auto_name (form p) (q_label w)) as [n|] eqn:Ha; simpl; [|done].
    intros [= <- <-]. split; [done|]. intros _. eexists. split; [reflexivity|].
    simpl. repeat split; try done.
    + unfold auto_name in Ha. apply name_loop_least in Ha as [_ [->|(_ & k & _ & -> & _)]].
      * rewrite base_name_nonempty, Hl. by rewrite base_name_nonempty.
      * apply suffixed_nonempty.
    + apply parse_choices_nonempty.
    + by intros ->.
Qed.

Lemma add_question_well_formed_witness :
  ∃ q, add_question (mkQForm "Gender" "select_one" false
                       (" M " +:+ String "010" "" +:+ String "010" "F") "")
         census 7
       = Some ([], set_form census (form census ++ [q]))
       ∧ name q = "gender_1" ∧ choices q = ["M"; "F"].
Proof.
  destruct (add_question_well_formed
              (mkQForm "Gender" "select_one" false
                 (" M " +:+ String "010" "" +:+ String "010" "F") "")
              census 7 []
              (set_form census (form census ++
                 [mkQuestion "q_7" "gender_1" "Gender" "select_one" ["M"; "F"] false])))
    as [_ H].
  - vm_compute. reflexivity.
  - destruct (H eq_refl) as (q & Hq & _).
    exists (mkQuestion "q_7" "gender_1" "Gender" "select_one" ["M"; "F"] false).
    split; [vm_compute; reflexivity|]. split; reflexivity.
Defined.

(** ** What the import makes of the rows *)

Lemma import_row_complete cols choices_df row t :
  import_row cols choices_df row t
  = if complete cols row
    then Some (mkQuestion (new_id "q" t)
                 (py_str (item cols row "name")) (py_str (item cols row "label"))
                 (normalized_type (py_str (item cols row "type")))
                 (if starts_select (py_str (item cols row "type"))
                  then list_choices choices_df
                         (if Py.contains " " (py_str (item cols row "type"))
                          then Py.after_first " " (py_str (item cols row "type"))
                          else py_str (item cols row "name"))
                  else [])
                 (required_flag (required_cell cols row)))
    else None.
Proof.
  unfold import_row, complete.
  by destruct (isna (item cols row "type") || isna (item cols row "name")
               || isna (item cols row "label")).
Qed.

Lemma import_rows_fields cols choices_df clock i rs :
  name <$> import_rows cols choices_df clock i rs
  = (λ r, py_str (item cols r "name")) <$> filter (λ r, complete cols r = true) rs ∧
  label <$> import_rows cols choices_df clock i rs
  = (λ r, py_str (item cols r "label")) <$> filter (λ r, complete cols r = true) rs ∧
  qtype <$> import_rows cols choices_df clock i rs
  = (λ r, normalized_type (py_str (item cols r "type")))
      <$> filter (λ r, complete cols r = true) rs.
Proof.
  revert i. induction rs as [|row rs IH]; intros i; [done|].
  rewrite import_rows_cons, import_row_complete, filter_cons.
  destruct (IH (S i)) as (IH1 & IH2 & IH3).
  destruct (complete cols row); case_decide; try done.
  rewrite !fmap_cons, IH1, IH2, IH3. done.
Qed.

(** An upload with a survey sheet that has the columns type, name and
    label is imported: [import_xlsform] returns [True] without a message
    and appends one question for each row in which all three cells are
    there, in the order of the rows, with the text of the name and label
    cells and the normalized text of the type cell; the other rows are
    skipped. *)
Theorem import_xlsform_rows (xls : Workbook cell) (survey_df : Frame cell)
    (p : Project) (clock : nat → Z) :
  sheet xls "survey" = Some survey_df →
  forallb (has_col (columns survey_df)) ["type"; "name"; "label"] = true →
  ∃ questions,
    import_xlsform (Readable xls) p clock = (true, [], set_form p (form p ++ questions)) ∧
    length questions
    = length (filter (λ r, complete (columns survey_df) r = true) (rows survey_df)) ∧
    name <$> questions
    = (λ r, py_str (item (columns survey_df) r "name"))
        <$> filter (λ r, complete (columns survey_df) r = true) (rows survey_df) ∧
    label <$> questions
    = (λ r, py_str (item (columns survey_df) r "label"))
        <$> filter (λ r, complete (columns survey_df) r = true) (rows survey_df) ∧
    qtype <$> questions
    = (λ r, normalized_type (py_str (item (columns survey_df) r "type")))
        <$> filter (λ r, complete (columns survey_df) r = true) (rows survey_df).
Proof.
  intros Hs Hc. unfold import_xlsform. rewrite Hs.
  apply missing_column_None in Hc. rewrite Hc.
  eexists. split; [reflexivity|].
  destruct (import_rows_fields (columns survey_df) (sheet xls "choices") clock 0
              (rows survey_df)) as (H1 & H2 & H3).
  split; [|done].
  apply (f_equal length) in H1. by rewrite !length_fmap in H1.
Qed.

Lemma import_xlsform_rows_witness :
  ∃ questions,
    import_xlsform
      (Readable [("survey", mkFrame ["type"; "name"; "label"]
                              [[CStr "text"; CStr "a"; CStr "A"];
                               [CStr "text"; NaN; CStr "B"];
                               [CInt 7; CStr "c"; CBool true]])])
      census (λ i, Z.of_nat i)
    = (true, [], set_form census (form census ++ questions))
    ∧ name <$> questions = ["a"; "c"] ∧ label <$> questions = ["A"; "True"]
    ∧ qtype <$> questions = ["text"; "7"].
Proof.
  destruct (import_xlsform_rows
              [("survey", mkFrame ["type"; "name"; "label"]
                            [[CStr "text"; CStr "a"; CStr "A"];
                             [CStr "text"; NaN; CStr "B"];
                             [CInt 7; CStr "c"; CBool true]])]
              (mkFrame ["type"; "name"; "label"]
                 [[CStr "text"; CStr "a"; CStr "A"];
                  [CStr "text"; NaN; CStr "B"];
                  [CInt 7; CStr "c"; CBool true]])
              census (λ i, Z.of_nat i))
    as (questions & Heq & _ & Hn & Hl & Ht).
  - reflexivity.
  - reflexivity.
  - exists questions. split; [exact Heq|]. split; [exact Hn|]. split; [exact Hl|exact Ht].
Defined.

(** ** Ids of imported questions *)

Lemma new_id_inj prefix t1 t2 : new_id prefix t1 = new_id prefix t2 → t1 = t2.
Proof.
  unfold new_id. intros H.
  apply (inj (String.app prefix)) in H. apply (inj (String.app "_")) in H.
  by apply (inj pretty) in H.
Qed.

Lemma import_row_qid cols choices_df row t q :
  import_row cols choices_df row t = Some q → qid q = new_id "q" t.
Proof.
  rewrite import_row_complete. destruct (complete cols row); [|done].
  by intros [= <-].
Qed.

Lemma import_rows_qid_NoDup cols choices_df clock i rs :
  (∀ j k, clock j = clock k → j = k) →
  NoDup (qid <$> import_rows cols choices_df clock i rs).
Proof.
  intros Hinj. revert i. induction rs as [|row rs IH]; intros i; [constructor|].
  rewrite import_rows_cons.
  destruct (import_row cols choices_df row (clock i)) as [q|] eqn:Hq; [|apply IH].
  rewrite fmap_cons. apply NoDup_cons. split; [|apply IH].
  intros Hin. apply list_elem_of_fmap in Hin as (q' & Hid & Hq').
  apply import_rows_elem in Hq' as (j & row' & _ & Hrow').
  apply import_row_qid in Hq, Hrow'. rewrite Hq, Hrow' in Hid.
  apply new_id_inj, Hinj in Hid. lia.
Qed.

(** The id of an imported question is q_ followed by the clock reading at
    its row.  So the questions of one import have pairwise distinct ids
    when the clock readings at different rows differ, and they all have
    the same id when the clock reads the same at every row. *)
Theorem import_xlsform_ids (xls : Workbook cell) (survey_df : Frame cell)
    (p : Project) (clock : nat → Z) :
  sheet xls "survey" = Some survey_df →
  forallb (has_col (columns survey_df)) ["type"; "name"; "label"] = true →
  ∃ questions,
    import_xlsform (Readable xls) p clock = (true, [], set_form p (form p ++ questions)) ∧
    ((∀ j k, clock j = clock k → j = k) → NoDup (qid <$> questions)) ∧
    (∀ t, (∀ j, clock j = t) → ∀ q, q ∈ questions → qid q = new_id "q" t).
Proof.
  intros Hs Hc. unfold import_xlsform. rewrite Hs.
  apply missing_column_None in Hc. rewrite Hc.
  eexists. split; [reflexivity|]. split.
  - intros Hinj. by apply import_rows_qid_NoDup.
  - intros t Ht q Hq. apply import_rows_elem in Hq as (j & row & _ & Hrow).
    apply import_row_qid in Hrow. by rewrite Hrow, Ht.
Qed.

Lemma import_xlsform_ids_witness :
  ∃ questions,
    import_xlsform
      (Readable [("survey", mkFrame ["type"; "name"; "label"]
                              [[CStr "text"; CStr "a"; CStr "A"];
                               [CStr "text"; CStr "b"; CStr "B"]])])
      census (λ _, 1714557600000%Z)
    = (true, [], set_form census (form census ++ questions))
    ∧ qid <$> questions = ["q_1714557600000"; "q_1714557600000"].
Proof.
  destruct (import_xlsform_ids
              [("survey", mkFrame ["type"; "name"; "label"]
                            [[CStr "text"; CStr "a"; CStr "A"];
                             [CStr "text"; CStr "b"; CStr "B"]])]
              (mkFrame ["type"; "name"; "label"]
                 [[CStr "text"; CStr "a"; CStr "A"];
                  [CStr "text"; CStr "b"; CStr "B"]])
              census (λ _, 1714557600000%Z))
    as (questions & Heq & _).
  - reflexivity.
  - reflexivity.
  - exists questions. split; [exact Heq|].
    vm_compute in Heq. injection Heq as <-. vm_compute. reflexivity.
Defined.

(** ** The list name of a select row *)

(** A row whose type cell is select_one or select_multiple, a space and
    a list name takes its choices from the rows of the choices sheet
    with that list name, whatever the name of the question; a row whose
    type cell is the bare keyword takes them from the rows whose list
    name is the name of the question itself. *)
Theorem import_row_list_name cols choices_df row t (kw list_name : string) :
  kw ∈ ["select_one"; "select_multiple"] →
  complete cols row = true →
  (item cols row "type" = CStr (kw +:+ " " +:+ list_name) →
     ∃ q, import_row cols choices_df row t = Some q ∧ qtype q = kw ∧
          choices q = list_choices choices_df list_name) ∧
  (item cols row "type" = CStr kw →
     ∃ q, import_row cols choices_df row t = Some q ∧ qtype q = kw ∧
          choices q = list_choices choices_df (py_str (item cols row "name"))).
Proof.
  intros Hkw Hc. rewrite import_row_complete, Hc.
  assert (Hcases : kw = "select_one" ∨ kw = "select_multiple") by set_solver.
  split; intros ->; eexists; (split; [reflexivity|]); simpl;
    destruct Hcases as [-> | ->]; done.
Qed.

Lemma import_row_list_name_witness :
  ∃ q, import_row ["type"; "name"; "label"]
         (Some (mkFrame ["list_name"; "name"; "label"]
                  [[CStr "colors"; CStr "r"; CStr "Red"];
                   [CStr "fav"; CStr "x"; CStr "X"];
                   [CStr "colors"; CStr "g"; NaN]]))
         [CStr "select_one colors"; CStr "fav"; CStr "Favourite"] 5 = Some q
       ∧ choices q = ["Red"; "g"].
Proof.
  destruct (import_row_list_name ["type"; "name"; "label"]
              (Some (mkFrame ["list_name"; "name"; "label"]
                       [[CStr "colors"; CStr "r"; CStr "Red"];
                        [CStr "fav"; CStr "x"; CStr "X"];
                        [CStr "colors"; CStr "g"; NaN]]))
              [CStr "select_one colors"; CStr "fav"; CStr "Favourite"] 5
              "select_one" "colors") as [H _].
  - set_solver.
  - reflexivity.
  - destruct (H eq_refl) as (q & Hq & _ & Hch).
    exists q. split; [exact Hq|]. rewrite Hch. vm_compute. reflexivity.
Defined.

(** ** The sheets of an export *)

Lemma choices_data_nil f :
  choices_data f = [] ↔ ∀ q, q ∈ f → choices q = [].
Proof.
  unfold choices_data. induction f as [|q f IH]; [by split; [intros _ ? ?%elem_of_nil|]|].
  rewrite bind_cons, choice_records_imap. split.
  - intros H. apply app_eq_nil in H as [Hq Hf].
    intros q' Hq'. apply elem_of_cons in Hq' as [->|Hq']; [|by apply IH].
    destruct (choices q); [done|discriminate].
  - intros H. rewrite (H q) by left. simpl. apply IH. intros q' Hq'. apply H. by right.
Qed.

Lemma choices_data_length f :
  length (choices_data f) = sum_list ((λ q, length (choices q)) <$> f).
Proof.
  unfold choices_data. induction f as [|q f IH]; [done|].
  rewrite bind_cons, length_app, IH, choice_records_imap, length_imap. done.
Qed.

(** The exported workbook has a survey sheet with one row for each
    question.  It has a choices sheet exactly when some question has a
    choice, and that sheet then has the columns list_name, name, label and
    one row for each choice of each question. *)
Theorem export_xlsform_sheets (p : Project) :
  (∃ survey_df, sheet (export_xlsform_to_bytes p) "survey" = Some survey_df ∧
                length (rows survey_df) = length (form p)) ∧
  (sheet (export_xlsform_to_bytes p) "choices" = None ↔
     ∀ q, q ∈ form p → choices q = []) ∧
  (∀ choices_df, sheet (export_xlsform_to_bytes p) "choices" = Some choices_df →
     columns choices_df = choices_columns ∧
     length (rows choices_df) = sum_list ((λ q, length (choices q)) <$> form p)).
Proof.
  unfold export_xlsform_to_bytes. split; [|split].
  - eexists. split; [reflexivity|]. unfold survey_data.
    destruct (form p); [done|]. simpl. by rewrite length_fmap.
  - rewrite <- choices_data_nil. simpl.
    destruct (choices_data (form p)); simpl; [done|]. split; discriminate.
  - intros df. pose proof (choices_data_length (form p)) as Hlen. simpl.
    destruct (choices_data (form p)) as [|r cd]; simpl; [done|].
    intros [= <-]. simpl in *. done.
Qed.

(** ** The older export, and the export of an empty form *)

(** The workbook that [export_xlsform_to_bytes] writes for an empty form
    has a survey sheet without columns, and [import_xlsform] refuses it
    for its missing type column; the workbook that the older copy writes
    has the header row, and is imported as no question. *)
Theorem empty_form_export_import (reinterpret : list string → string → cell)
    (p p0 : Project) (clock : nat → Z) :
  form p = [] →
  import_xlsform (Readable (read_back reinterpret (export_xlsform_to_bytes p))) p0 clock
  = (false, ["XLSForm must contain 'type' column in survey sheet"], p0) ∧
  import_xlsform (Readable (read_back reinterpret (Legacy.export_xlsform_to_bytes p)))
    p0 clock
  = (true, [], p0).
Proof.
  intros Hf. split.
  - by apply reimport_empty.
  - unfold import_xlsform, Legacy.export_xlsform_to_bytes. rewrite Hf. simpl.
    by rewrite app_nil_r, set_form_same.
Qed.

Lemma empty_form_export_import_witness :
  (import_xlsform
     (Readable (read_back as_written (export_xlsform_to_bytes (clear_all census))))
     census (λ i, Z.of_nat i)).1.1 = false.
Proof.
  destruct (empty_form_export_import as_written (clear_all census) census
              (λ i, Z.of_nat i)) as [H _].
  - reflexivity.
  - by rewrite H.
Defined.

(** A workbook written by the older copy of [export_xlsform_to_bytes],
    which always has a choices sheet, is imported by [import_xlsform] as
    the form it was written from: for a form in which every question has
    a name, a label and a written type cell that are plain, a supported
    type, choices exactly when its type is a select type and only plain
    choices, and in which no two select questions share a name, the
    import into a project with an empty form succeeds and yields the
    names, labels, types, required flags and choices of the original, in
    order. *)
Theorem legacy_export_import_roundtrip (reinterpret : list string → string → cell)
    (p p0 : Project) (clock : nat → Z) :
  valid_form (form p) = true → form p0 = [] →
  ∃ p',
    import_xlsform
      (Readable (read_back reinterpret (Legacy.export_xlsform_to_bytes p))) p0 clock
    = (true, [], p') ∧
    content <$> form p' = content <$> form p ∧
    data p' = data p0 ∧ pid p' = pid p0 ∧ title p' = title p0.
Proof.
  intros Hv H0. unfold import_xlsform, Legacy.export_xlsform_to_bytes. simpl.
  eexists. split; [reflexivity|]. simpl. rewrite H0. simpl.
  split; [|done].
  by apply (import_rows_written reinterpret _ (choices_data (form p)) (form p) (form p)).
Qed.

Lemma legacy_export_import_roundtrip_witness :
  ∃ p',
    import_xlsform
      (Readable (read_back as_written (Legacy.export_xlsform_to_bytes census)))
      (clear_all census) (λ i, Z.of_nat i) = (true, [], p') ∧
    content <$> form p' = content <$> form census.
Proof.
  destruct (legacy_export_import_roundtrip as_written census (clear_all census)
              (λ i, Z.of_nat i))
    as (p' & Heq & Hc & _).
  - vm_compute. reflexivity.
  - reflexivity.
  - exists p'. split; [exact Heq|exact Hc].
Defined.

(** ** The entry of the collect form *)

Lemma collect_step_other w entry q n :
  n ≠ name q → collect_step w entry q !! n = entry !! n.
Proof.
  intros Hne. unfold collect_step.
  repeat case_decide; try done; by rewrite lookup_insert_ne.
Qed.

Lemma collect_fold_other w init f n :
  n ∉ name <$> f → foldl (collect_step w) init f !! n = init !! n.
Proof.
  revert init. induction f as [|q f IH]; intros init Hn; [done|].
  rewrite fmap_cons in Hn. apply not_elem_of_cons in Hn as [Hq Hf].
  simpl. rewrite IH by done. by apply collect_step_other.
Qed.

(** With pairwise distinct names, what the loop leaves under the name of
    a question is what the pass for that question writes. *)
Lemma collect_fold_own w init f q :
  NoDup (name <$> f) → q ∈ f →
  foldl (collect_step w) init f !! name q = collect_step w init q !! name q.
Proof.
  revert init. induction f as [|q' f IH]; intros init Hnd Hin;
    [by apply elem_of_nil in Hin|].
  rewrite fmap_cons in Hnd. apply NoDup_cons in Hnd as [Hfresh Hnd].
  simpl. apply elem_of_cons in Hin as [<-|Hin].
  - by rewrite collect_fold_other.
  - rewrite IH by done.
    assert (Hne : name q ≠ name q').
    { intros Heq. apply Hfresh. rewrite <- Heq. apply list_elem_of_fmap. by exists q. }
    unfold collect_step at 1 3.
    repeat case_decide; try done; by rewrite ?lookup_insert_eq, ?collect_step_other.
Qed.

Lemma not_widget_type (t : string) :
  t ∉ widget_types →
  t ≠ "text" ∧ t ≠ "integer" ∧ t ≠ "decimal" ∧ t ≠ "date"
  ∧ t ≠ "select_one" ∧ t ≠ "select_multiple".
Proof.
  unfold widget_types. rewrite !not_elem_of_cons. naive_solver.
Qed.

Lemma widget_keys_NoDup f : NoDup (name <$> f) → NoDup (widget_keys f).
Proof.
  intros Hnd. unfold widget_keys. eapply sublist_NoDup; [exact Hnd|].
  apply fmap_sublist, sublist_filter.
Qed.

(** On a form with pairwise distinct names the collect form builds an
    entry that holds, under the name of each question, the value of its
    widget: text for text and select_one, a number for integer and
    decimal, a date for date, a list for select_multiple, [None] for a
    note, and no key for a question of any other type. *)
Theorem collect_entry_values (f : list Question) (w : widgets) :
  NoDup (name <$> f) →
  ∃ entry,
    collect_entry f w = Some entry ∧
    (∀ k, is_Some (entry !! k) → k ∈ name <$> f) ∧
    ∀ q, q ∈ f →
      (qtype q = "text" → entry !! name q = Some (VStr (text_input w (name q)))) ∧
      (qtype q = "integer" → entry !! name q = Some (VFloat (number_input w (name q)))) ∧
      (qtype q = "decimal" → entry !! name q = Some (VFloat (number_input w (name q)))) ∧
      (qtype q = "date" → entry !! name q = Some (VDate (date_input w (name q)))) ∧
      (qtype q = "select_one" → entry !! name q = Some (VStr (selectbox w (name q)))) ∧
      (qtype q = "select_multiple" →
         entry !! name q = Some (VList (multiselect w (name q)))) ∧
      (qtype q = "note" → entry !! name q = Some VNone) ∧
      (qtype q ∉ "note" :: widget_types → entry !! name q = None).
Proof.
  intros Hnd. unfold collect_entry.
  rewrite bool_decide_eq_true_2 by by apply widget_keys_NoDup.
  eexists. split; [reflexivity|]. split.
  - intros k Hk. destruct (decide (k ∈ name <$> f)) as [|Hn]; [done|].
    rewrite collect_fold_other in Hk by done. rewrite lookup_empty in Hk.
    by destruct Hk.
  - intros q Hq. rewrite (collect_fold_own w ∅ f q Hnd Hq). unfold collect_step.
    repeat split; intros Ht.
    1-7: rewrite Ht; simpl; by rewrite lookup_insert_eq.
    pose proof Ht as Ht0. apply not_elem_of_cons in Ht as [_ Ht].
    apply not_widget_type in Ht as (H1 & H2 & H3 & H4 & H5 & H6).
    apply not_elem_of_cons in Ht0 as [H0 _].
    rewrite !decide_False by done. apply lookup_empty.
Qed.

Lemma collect_entry_values_witness :
  ∃ entry,
    collect_entry (form census)
      (mkWidgets (λ _, "Alice") (λ _, 30%Q) (λ _, "2001-02-03") (λ _, "F") (λ _, []))
    = Some entry
    ∧ entry !! "name" = Some (VStr "Alice") ∧ entry !! "gender" = Some (VStr "F").
Proof.
  destruct (collect_entry_values (form census)
              (mkWidgets (λ _, "Alice") (λ _, 30%Q) (λ _, "2001-02-03") (λ _, "F") (λ _, [])))
    as (entry & He & _ & Hv).
  - apply (bool_decide_unpack _). vm_compute. exact I.
  - exists entry. split; [exact He|]. split.
    + apply (Hv q_name_ex); [set_solver|reflexivity].
    + apply (Hv q_gender_ex); [set_solver|reflexivity].
Defined.

(** On a form with pairwise distinct names, a required question that is
    a note, or whose type is none of those the collect form has a widget
    for, makes every submission fail: whatever is entered, the handler
    reports missing answers and the project is as it was. *)
Theorem required_note_blocks (p : Project) (w : widgets) (now : string) (q : Question) :
  NoDup (names p) → q ∈ form p → required q = true → qtype q ∉ widget_types →
  ∃ msg, collect_submit w p now = Some ([msg], p).
Proof.
  intros Hnd Hq Hr Ht. unfold collect_submit, collect_entry.
  rewrite bool_decide_eq_true_2 by by apply widget_keys_NoDup.
  simpl. unfold submit_record, missing.
  assert (Hoff : q ∈ filter (λ q0, offending (foldl (collect_step w) ∅ (form p)) q0 = true)
                     (form p)).
  { apply list_elem_of_filter. split; [|done].
    unfold offending. rewrite Hr. simpl.
    rewrite (collect_fold_own w ∅ (form p) q Hnd Hq). unfold collect_step.
    apply not_widget_type in Ht as (H1 & H2 & H3 & H4 & H5 & H6).
    rewrite !(decide_False (P := qtype q = "text")),
      !(decide_False (P := qtype q = "integer")),
      !(decide_False (P := qtype q = "decimal")),
      !(decide_False (P := qtype q = "date")) by done.
    case_decide; [by rewrite lookup_insert_eq|].
    rewrite !decide_False by done. by rewrite lookup_empty. }
  destruct (filter _ (form p)) as [|q0 rest]; [by apply elem_of_nil in Hoff|].
  eexists. reflexivity.
Qed.

Lemma required_note_blocks_witness :
  ∃ msg,
    collect_submit
      (mkWidgets (λ _, "Alice") (λ _, 30%Q) (λ _, "2001-02-03") (λ _, "F") (λ _, []))
      (set_form census [q_name_ex; mkQuestion "q_9" "intro" "Read this" "note" [] true])
      "2024-05-02T08:00:00"
    = Some ([msg],
            set_form census [q_name_ex; mkQuestion "q_9" "intro" "Read this" "note" [] true])
    ∧ msg = "Please fill required questions: Read this".
Proof.
  destruct (required_note_blocks
              (set_form census [q_name_ex; mkQuestion "q_9" "intro" "Read this" "note" [] true])
              (mkWidgets (λ _, "Alice") (λ _, 30%Q) (λ _, "2001-02-03") (λ _, "F") (λ _, []))
              "2024-05-02T08:00:00"
              (mkQuestion "q_9" "intro" "Read this" "note" [] true)) as [msg Hmsg].
  - apply (bool_decide_unpack _). vm_compute. exact I.
  - set_solver.
  - reflexivity.
  - unfold widget_types. set_solver.
  - exists msg. split; [exact Hmsg|].
    vm_compute in Hmsg. injection Hmsg as <-. reflexivity.
Defined.

(** ** Projects of a user *)

Lemma user_projects_insert user m (s : store) :
  user_projects user (<[user := m]> s) = m.
Proof. unfold user_projects, store in *. by rewrite lookup_insert_eq. Qed.

(** With a title that is not blank, Create Project puts under the id
    proj_ followed by the clock reading a project with the stripped
    title, the user as owner, and an empty form and no record, and makes
    it the current project.  Every project of the user under another id,
    so every project made at another clock reading, and every project of
    another user stay as they were; a project of the user made at the
    same clock reading is replaced. *)
Theorem create_project_adds (user new_title : string) (s : store) (cur : option string)
    (t : Z) (now : string) :
  Py.nonempty (Py.strip new_title) = true →
  ∃ s',
    create_project user new_title s cur t now = ([], s', Some (new_id "proj" t)) ∧
    user_projects user s' !! new_id "proj" t
    = Some (mkProject (new_id "proj" t) (Py.strip new_title) user now [] []) ∧
    (∀ pid', pid' ≠ new_id "proj" t →
       user_projects user s' !! pid' = user_projects user s !! pid') ∧
    (∀ t0, t0 ≠ t →
       user_projects user s' !! new_id "proj" t0 = user_projects user s !! new_id "proj" t0) ∧
    (∀ other, other ≠ user → s' !! other = s !! other).
Proof.
  intros Ht. unfold create_project. rewrite Ht. simpl.
  eexists. split; [reflexivity|]. rewrite user_projects_insert. unfold store in *.
  split; [by rewrite lookup_insert_eq|].
  split; [intros pid' Hne; by rewrite lookup_insert_ne|].
  split.
  - intros t0 Hne. rewrite lookup_insert_ne; [done|].
    intros Heq. by apply new_id_inj in Heq.
  - intros other Hne. by rewrite lookup_insert_ne.
Qed.

Lemma create_project_adds_witness :
  ∃ s',
    create_project "ann" "  Census 2 " {[ "ann" := {[ "proj_1" := census ]} ]} None 2 "2024-06-01"
    = ([], s', Some "proj_2")
    ∧ user_projects "ann" s' !! "proj_1" = Some census.
Proof.
  destruct (create_project_adds "ann" "  Census 2 "
              {[ "ann" := {[ "proj_1" := census ]} ]} None 2 "2024-06-01")
    as (s' & Heq & _ & _ & Hkeep & _).
  - reflexivity.
  - exists s'. split; [exact Heq|].
    etransitivity; [apply (Hkeep 1%Z); lia|]. vm_compute. reflexivity.
Defined.

(** A blank title makes Create Project warn and change nothing.  Deleting
    the project that Create Project has just made, when its id was not
    in use, gives the user's projects back as they were and leaves no
    current project; the projects of other users are never touched. *)
Theorem create_then_delete (user new_title : string) (s : store) (cur : option string)
    (t : Z) (now : string) :
  (Py.nonempty (Py.strip new_title) = false →
     create_project user new_title s cur t now
     = (["Please provide a project title."], s, cur)) ∧
  (Py.nonempty (Py.strip new_title) = true →
   user_projects user s !! new_id "proj" t = None →
   ∃ s'',
     delete_current_project user (new_id "proj" t)
       (create_project user new_title s cur t now).1.2
     = Some ("Project '" +:+ Py.strip new_title +:+ "' deleted.", s'', None) ∧
     user_projects user s'' = user_projects user s ∧
     ∀ other, other ≠ user → s'' !! other = s !! other).
Proof.
  unfold create_project. split; intros Ht; rewrite Ht; simpl; [done|].
  intros Hfresh. unfold delete_current_project, store in *.
  rewrite lookup_insert_eq. simpl. rewrite lookup_insert_eq. simpl.
  eexists. split; [reflexivity|]. rewrite insert_insert_eq, user_projects_insert.
  split.
  - rewrite delete_insert_eq. by apply delete_id.
  - intros other Hne. by rewrite lookup_insert_ne.
Qed.

Lemma create_then_delete_witness :
  ∃ s'',
    delete_current_project "ann" "proj_2"
      (create_project "ann" "Census 2" {[ "ann" := {[ "proj_1" := census ]} ]}
         None 2 "2024-06-01").1.2
    = Some ("Project 'Census 2' deleted.", s'', None)
    ∧ user_projects "ann" s'' = {[ "proj_1" := census ]}.
Proof.
  destruct (create_then_delete "ann" "Census 2"
              {[ "ann" := {[ "proj_1" := census ]} ]} None 2 "2024-06-01") as [_ H].
  destruct H as (s'' & Heq & Hsame & _).
  - reflexivity.
  - reflexivity.
  - exists s''. split; [exact Heq|]. rewrite Hsame. vm_compute. reflexivity.
Defined.
